(** * web/middleware.go: the request-context pipeline

    A shallow embedding of the middleware chain of [web/middleware.go]
    (package [web]) and the properties its specification states about it.

    Go values are modelled as follows.
    - [int] is [Z]; the only arithmetic the file performs on it is the
      bitwise [|=] and the comparison [>], neither of which can overflow
      ([lor_isInt]).
    - a pointer to a [discordgo.Guild] is an index into a heap of guild
      objects kept in the [World]; the context stores the pointer, so the
      in-place field updates of the middlewares are visible through every
      context that holds it.
    - [context.Context] is the chain of [context.WithValue] cells, newest
      first; [Value] returns the newest binding of a key.
    - a handler is a function from the request to a computation over the
      [World] that may panic; [defer] is modelled with its Go meaning (the
      deferred call also runs when the body panics). *)

From Stdlib Require Import ZArith Lia Ascii String List Bool.
From stdpp Require Import base option list strings gmap.

Local Open Scope string_scope.
Local Open Scope list_scope.

(** ** Strings with a double quote inside *)

Definition dquote : string := String (ascii_of_nat 34) EmptyString.

(** [quoted s] is [s] between two double quotes. *)
Definition quoted (s : string) : string := dquote +:+ s +:+ dquote.

(** ** discordgo data *)

Module Role.
Record t := mk {
  ID : string;
  Name : string;
  Permissions : Z;
  Position : Z
}.
End Role.

Module Channel.
Record t := mk { ID : string; Name : string }.
End Channel.

Module Guild.
Record t := mk {
  ID : string;
  Name : string;
  Region : string;
  OwnerID : string;
  Roles : list Role.t;
  Channels : list Channel.t
}.
End Guild.

Module UserGuild.
Record t := mk {
  ID : string;
  Name : string;
  Owner : bool;
  Permissions : Z
}.
End UserGuild.

Module Member.
Record t := mk { GuildID : string; Roles : list string }.
End Member.

Module User.
Record t := mk { ID : string; Username : string }.
End User.

(** ** Errors *)

(** [type PublicError struct { msg string }] *)
Record PublicError := mkPublicError { msg : string }.

(** A non-nil value of the interface type [error], by dynamic type:
    [*PublicError] (whose pointer may itself be nil) or any other type,
    of which only the text of [Error()] is kept. *)
Inductive error :=
| EPublic (p : option PublicError)
| EOther (text : string).

(** [func (p *PublicError) Error() string]; [None] is the nil-pointer
    dereference. *)
Definition PublicError_Error (p : option PublicError) : option string :=
  msg <$> p.

(** [fmt.Sprint] of string operands is their concatenation. *)
Definition Sprint (a : list string) : string := String.concat "" a.

(** [func NewPublicError(a ...interface{}) error] *)
Definition NewPublicError (a : list string) : error :=
  EPublic (Some (mkPublicError (Sprint a))).

(** ** Alerts and template data *)

Inductive AlertTemplate := AlertDanger | AlertSuccess | AlertInfo.

Record Alert := mkAlert { Template : AlertTemplate; Message : string }.

(** Modelled from the spec: [ErrorAlert] is not in this file; the spec has
    an alert as a (severity, message) entry, and the callers pass the
    message operands. *)
Definition ErrorAlert (args : list string) : Alert :=
  mkAlert AlertDanger (Sprint args).

(** Modelled from the spec: [SucessAlert] is not in this file; same shape
    as [ErrorAlert] with the success severity. *)
Definition SucessAlert (args : list string) : Alert :=
  mkAlert AlertSuccess (Sprint args).

(** The decoded form: the value [reflect.New(typ).Interface()] after
    [decoder.Decode] filled it. *)
Record FormValue := mkForm {
  TypeName : string;
  Fields : list (string * string)
}.

(** [url.Values] *)
Definition Values := list (string * list string).

(** Dynamic values of type [interface{}] that this file stores in the
    context, in template data, or returns from handlers.  A nil interface
    is [None : option value]; a typed nil pointer is a [value]. *)
#[warnings="-register-all"]
Inductive value :=
| VGuild (p : option nat)            (* *discordgo.Guild *)
| VUserGuild (g : UserGuild.t)       (* *discordgo.UserGuild *)
| VGuilds (gs : list UserGuild.t)    (* []*discordgo.UserGuild *)
| VChannels (cs : list Channel.t)    (* []*discordgo.Channel *)
| VUser (u : User.t)                 (* *discordgo.User *)
| VMember (m : Member.t)             (* *discordgo.Member *)
| VRole (r : option Role.t)          (* *discordgo.Role *)
| VInt (n : Z)
| VBool (b : bool)
| VString (s : string)
| VForm (f : FormValue)
| VRedis (client : nat)              (* *redis.Client *)
| VTemplateData (p : nat)            (* TemplateData, a reference *)
| VError (e : error)
| VMap (m : list (string * value)).  (* map[string]interface{} *)

(** Modelled from the spec: the type [TemplateData] is not in this file;
    the spec has it as an accumulating bag of page-render data plus a
    sequence of alert entries, shared by reference. *)
Record TemplateData := mkTemplateData {
  Data : gmap string value;
  Alerts : list Alert
}.

(** ** The request context *)

Inductive ContextKey :=
| ContextKeyRedis
| ContextKeyDiscordSession
| ContextKeyTemplateData
| ContextKeyUser
| ContextKeyGuilds
| ContextKeyCurrentGuild
| ContextKeyCurrentUserGuild
| ContextKeyGuildChannels
| ContextKeyParsedForm
| ContextKeyFormOk
| ContextKeyBotMember
| ContextKeyBotPermissions
| ContextKeyHighestBotRole.

#[global] Instance ContextKey_eq_dec : EqDecision ContextKey.
Proof. solve_decision. Defined.

Definition Context := list (ContextKey * value).

(** [context.WithValue(ctx, k, v)] *)
Definition WithValue (ctx : Context) (k : ContextKey) (v : value) : Context :=
  (k, v) :: ctx.

(** [ctx.Value(k)]: the newest binding, [None] for the nil interface. *)
Fixpoint Value (ctx : Context) (k : ContextKey) : option value :=
  match ctx with
  | [] => None
  | (k', v) :: rest => if decide (k' = k) then Some v else Value rest k
  end.

(** ** The world a request runs in *)

Inductive Level := LInfo | LWarn | LError | LPrint.

Record LogEntry := mkLog {
  LogLevel : Level;
  LogMsg : string;
  LogError : option error;              (* log.WithError *)
  LogFields : list (string * string)    (* WithField *)
}.

Inductive Chunk :=
| Raw (s : string)          (* bytes written as they are *)
| JSON (v : value).         (* json.NewEncoder(w).Encode(v) *)

Inductive WCall :=
| CWriteHeader (code : Z)
| CWrite (c : Chunk).

(** [http.ResponseWriter]: the header map and the calls made on it. *)
Record ResponseWriter := mkWriter {
  Header : gmap string (list string);
  Calls : list WCall
}.

Record World := mkWorld {
  accepting : bool;                           (* IsAcceptingRequests() *)
  guildHeap : list Guild.t;                   (* *discordgo.Guild objects *)
  tmplHeap : list TemplateData;               (* TemplateData maps *)
  writer : ResponseWriter;
  logs : list LogEntry;
  fetched : list string;                      (* calls of common.GetGuild *)
  saved : list (FormValue * string);          (* calls of form.Save *)
  cplog : list (User.t * string * string)     (* common.AddCPLogEntry *)
}.

Record Request := mkRequest {
  Ctx : Context;                (* r.Context() *)
  URL : string;                 (* r.URL.String() *)
  ServerParam : string;         (* pat.Param(r, "server") *)
  ContentType : string;         (* r.Header.Get("content-type") *)
  Form : Values                 (* r.Form, set by the parse calls *)
}.

(** [r.WithContext(ctx)] *)
Definition WithContext (r : Request) (ctx : Context) : Request :=
  mkRequest ctx (URL r) (ServerParam r) (ContentType r) (Form r).

(** ** Computations: state passing with panics *)

Inductive Result (A : Type) :=
| Ok (a : A)
| Panic (what : string).
Arguments Ok {A} a.
Arguments Panic {A} what.

Definition M (A : Type) : Type := World -> Result A * World.

Definition ret {A} (a : A) : M A := fun w => (Ok a, w).

Definition bind {A B} (m : M A) (f : A -> M B) : M B :=
  fun w =>
    match m w with
    | (Ok a, w1) => f a w1
    | (Panic s, w1) => (Panic s, w1)
    end.

Definition panic {A} (what : string) : M A := fun w => (Panic what, w).

Definition modify (f : World -> World) : M unit := fun w => (Ok tt, f w).

Definition gets {A} (f : World -> A) : M A := fun w => (Ok (f w), w).

#[global] Instance M_ret : MRet M := @ret.
#[global] Instance M_bind : MBind M := fun A B f m => bind m f.

(** What a deferred call [d] makes of the outcome [out] of the function
    body: [d] runs on the world the body left, whether the body returned
    or panicked; a panic of [d] replaces the one of the body. *)
Definition runDeferred {A} (d : M unit) (out : Result A * World)
    : Result A * World :=
  match d out.2 with
  | (Ok _, w2) => (out.1, w2)
  | (Panic s, w2) => (Panic s, w2)
  end.

(** [defer d] placed in front of [body]. *)
Definition defer_ {A} (d : M unit) (body : M A) : M A :=
  fun w => runDeferred d (body w).

Definition Handler := Request -> M unit.

(** ** World updates *)

Definition set_guildHeap (h : list Guild.t) (w : World) : World :=
  mkWorld (accepting w) h (tmplHeap w) (writer w) (logs w) (fetched w)
          (saved w) (cplog w).

Definition set_tmplHeap (h : list TemplateData) (w : World) : World :=
  mkWorld (accepting w) (guildHeap w) h (writer w) (logs w) (fetched w)
          (saved w) (cplog w).

Definition set_writer (x : ResponseWriter) (w : World) : World :=
  mkWorld (accepting w) (guildHeap w) (tmplHeap w) x (logs w) (fetched w)
          (saved w) (cplog w).

Definition set_logs (l : list LogEntry) (w : World) : World :=
  mkWorld (accepting w) (guildHeap w) (tmplHeap w) (writer w) l (fetched w)
          (saved w) (cplog w).

Definition set_fetched (l : list string) (w : World) : World :=
  mkWorld (accepting w) (guildHeap w) (tmplHeap w) (writer w) (logs w) l
          (saved w) (cplog w).

Definition set_saved (l : list (FormValue * string)) (w : World) : World :=
  mkWorld (accepting w) (guildHeap w) (tmplHeap w) (writer w) (logs w)
          (fetched w) l (cplog w).

Definition set_cplog (l : list (User.t * string * string)) (w : World) : World :=
  mkWorld (accepting w) (guildHeap w) (tmplHeap w) (writer w) (logs w)
          (fetched w) (saved w) l.

(** *** Logging (logrus) *)

Definition log (lvl : Level) (e : option error) (fields : list (string * string))
    (m : string) : M unit :=
  modify (fun w => set_logs (logs w ++ [mkLog lvl m e fields]) w).

(** *** The response writer *)

(** [w.Header().Set(k, v)] *)
Definition HeaderSet (k v : string) : M unit :=
  modify (fun w =>
    set_writer (mkWriter (<[k := [v]]> (Header (writer w))) (Calls (writer w))) w).

Definition call (c : WCall) : M unit :=
  modify (fun w =>
    set_writer (mkWriter (Header (writer w)) (Calls (writer w) ++ [c])) w).

Definition WriteHeader (code : Z) : M unit := call (CWriteHeader code).
Definition Write (c : Chunk) : M unit := call (CWrite c).

Definition StatusTemporaryRedirect : Z := 307.
Definition StatusInternalServerError : Z := 500.

(** [http.Redirect(w, r, url, code)]: the [Location] header and the status
    line (the short HTML body it adds for GET requests is left out). *)
Definition Redirect (url : string) (code : Z) : M unit :=
  HeaderSet "Location" url;; WriteHeader code.

(** ** Library functions the file calls *)

(** *** [strconv.ParseInt(s, 10, 64)] *)

Inductive NumError := ErrSyntax | ErrRange.

Definition is_digit (c : ascii) : bool :=
  (48 <=? nat_of_ascii c)%nat && (nat_of_ascii c <=? 57)%nat.

Definition digit_val (c : ascii) : Z := Z.of_nat (nat_of_ascii c) - 48.

(** The digit loop of [strconv.ParseUint] in base 10 with 64 bits: it stops
    at the first byte that is not a digit or that makes the value leave
    the range. *)
Fixpoint parseUintLoop (s : string) (n : Z) : Z + NumError :=
  match s with
  | EmptyString => inl n
  | String c s' =>
      if is_digit c then
        let n1 := (n * 10 + digit_val c)%Z in
        if (2 ^ 64 <=? n1)%Z then inr ErrRange else parseUintLoop s' n1
      else inr ErrSyntax
  end.

Definition ParseUint (s : string) : Z + NumError :=
  match s with
  | EmptyString => inr ErrSyntax
  | _ => parseUintLoop s 0
  end.

Definition ParseInt (s : string) : Z + NumError :=
  match s with
  | EmptyString => inr ErrSyntax
  | String c s' =>
      let neg := bool_decide (c = "-"%char) in
      let body := if bool_decide (c = "+"%char) || neg then s' else s in
      match ParseUint body with
      | inr e => inr e
      | inl un =>
          if negb neg && (2 ^ 63 <=? un)%Z then inr ErrRange
          else if neg && (2 ^ 63 <? un)%Z then inr ErrRange
          else inl (if neg then (- un)%Z else un)
      end
  end.

(** *** [strings.Contains] *)

Fixpoint has_prefix (p s : string) : bool :=
  match p, s with
  | EmptyString, _ => true
  | String a p', String b s' => bool_decide (a = b) && has_prefix p' s'
  | String _ _, EmptyString => false
  end.

Fixpoint Contains (s substr : string) : bool :=
  has_prefix substr s ||
  match s with
  | EmptyString => false
  | String _ s' => Contains s' substr
  end.

(** ** The heaps *)

Definition nilDeref : string :=
  "invalid memory address or nil pointer dereference".

(** A fresh [discordgo.Guild] object. *)
Definition newGuild (g : Guild.t) : M nat :=
  fun w => (Ok (length (guildHeap w)), set_guildHeap (guildHeap w ++ [g]) w).

(** Reading through a [*discordgo.Guild]. *)
Definition loadGuild (p : option nat) : M Guild.t :=
  fun w =>
    match p ≫= (fun i => guildHeap w !! i) with
    | Some g => (Ok g, w)
    | None => (Panic nilDeref, w)
    end.

(** Writing the object behind a [*discordgo.Guild]. *)
Definition storeGuild (p : nat) (g : Guild.t) : M unit :=
  modify (fun w => set_guildHeap (<[p := g]> (guildHeap w)) w).

Definition newTemplateData (t : TemplateData) : M nat :=
  fun w => (Ok (length (tmplHeap w)), set_tmplHeap (tmplHeap w ++ [t]) w).

Definition loadTemplateData (p : option nat) : M TemplateData :=
  fun w =>
    match p ≫= (fun i => tmplHeap w !! i) with
    | Some t => (Ok t, w)
    | None => (Panic nilDeref, w)
    end.

Definition storeTemplateData (p : nat) (t : TemplateData) : M unit :=
  modify (fun w => set_tmplHeap (<[p := t]> (tmplHeap w)) w).

(** ** Helpers of package [web] that live in other files *)

(** Modelled from the spec: [AddAlerts] is not in this file; the spec has
    the alerts of the render data as a sequence that stages append to. *)
Definition AddAlerts (p : option nat) (alerts : list Alert) : M unit :=
  t ← loadTemplateData p;
  match p with
  | Some i => storeTemplateData i (mkTemplateData (Data t) (Alerts t ++ alerts))
  | None => panic nilDeref
  end.

(** Modelled from the spec: [RedisClientFromContext] is not in this file;
    the cache client of the context, nil when absent. *)
Definition RedisClientFromContext (ctx : Context) : option nat :=
  match Value ctx ContextKeyRedis with
  | Some (VRedis c) => Some c
  | _ => None
  end.

(** Modelled from the spec: [SetContextTemplateData] is not in this file;
    the render data is one object shared by reference, so entries are
    added to the object the context already holds, and a context without
    one gets a new object. *)
Definition SetContextTemplateData (ctx : Context)
    (data : list (string * value)) : M Context :=
  match Value ctx ContextKeyTemplateData with
  | Some (VTemplateData p) =>
      t ← loadTemplateData (Some p);
      storeTemplateData p
        (mkTemplateData (list_to_map data ∪ Data t) (Alerts t));;
      mret ctx
  | Some _ => panic "interface conversion"
  | None =>
      p ← newTemplateData (mkTemplateData (list_to_map data) []);
      mret (WithValue ctx ContextKeyTemplateData (VTemplateData p))
  end.

(** Modelled from the spec: [GetCreateTemplateData] is not in this file;
    the render data of the context, created when the context has none. *)
Definition GetCreateTemplateData (ctx : Context) : M (Context * nat) :=
  match Value ctx ContextKeyTemplateData with
  | Some (VTemplateData p) => mret (ctx, p)
  | Some _ => panic "interface conversion"
  | None =>
      p ← newTemplateData (mkTemplateData ∅ []);
      mret (WithValue ctx ContextKeyTemplateData (VTemplateData p), p)
  end.

(** Modelled from the spec: [GetBaseCPContextData] is not in this file; it
    hands out the cache client, the active organization and the render
    data of the context.  The spec does not say what happens when the
    organization or the render data is absent: the model panics there,
    like the unchecked assertions of this file, and every theorem about a
    caller assumes that both are present. *)
Definition GetBaseCPContextData (ctx : Context) : M (option nat * nat * nat) :=
  match Value ctx ContextKeyCurrentGuild, Value ctx ContextKeyTemplateData with
  | Some (VGuild (Some g)), Some (VTemplateData t) =>
      mret (RedisClientFromContext ctx, g, t)
  | _, _ => panic "interface conversion"
  end.

(** ** External collaborators *)

(** The form schema handed to [FormParserMW] as [dst]. *)
Record FormSchema := mkSchema { SchemaType : string }.

(** The services the middlewares call: the guild and channel fetches of
    package [common], the bot member lookups, the admin check, the form
    parsers of [net/http], the [gorilla/schema] decoder, and three pieces
    of this repository that are not in this file and are taken as they
    come: the form validation [ValidateForm], the error helper [CheckErr]
    and the [Save] methods of the configuration types
    ([ImplementsSaver f] tells whether the dynamic type of [f] has the
    methods of [SimpleConfigSaver]). *)
Record Env := mkEnv {
  GetGuild : string -> Guild.t + error;
  GetGuildChannels : string -> list Channel.t + error;
  GetBotMember : string -> Member.t + error;
  GuildMember : string -> string -> Member.t + error;
  BotID : string;
  IsAdminCtx : Context -> World -> bool;
  ParseForm : Request -> Values + error;
  ParseMultipartForm : Request -> Z -> Values + error;
  Decode : FormSchema -> Values -> FormValue * option error;
  ValidateForm : nat -> nat -> FormValue -> M bool;
  CheckErr : nat -> option error -> string -> M bool;
  ImplementsSaver : FormValue -> bool;
  Save : FormValue -> option nat -> string -> option error
}.

(** [common.GetGuild(client, id)], recording the call. *)
Definition fetchGuild (env : Env) (guildID : string) : M (Guild.t + error) :=
  modify (fun w => set_fetched (fetched w ++ [guildID]) w);;
  mret (GetGuild env guildID).

(** ** The middlewares *)

(** [defer func() { inner.ServeHTTP(w, r) }()]: the closure reads the
    variable [r] when it runs, so [inner] is served the request that the
    body assigned last; [body] returns that request.  In the two functions
    that use this form every panic comes before the first assignment to
    [r], so a panicking body leaves the incoming request [r0]. *)
Definition deferServe (inner : Handler) (r0 : Request) (body : M Request)
    : M unit :=
  fun w =>
    match body w with
    | (Ok r', w1) => inner r' w1
    | (Panic s, w1) =>
        match inner r0 w1 with
        | (Ok _, w2) => (Panic s, w2)
        | (Panic s', w2) => (Panic s', w2)
        end
    end.

(** The unchecked assertion of a context value to a guild pointer,
    [guild := v.( *discordgo.Guild )]. *)
Definition assertGuild (v : option value) : M (option nat) :=
  match v with
  | Some (VGuild p) => mret p
  | _ => panic "interface conversion: interface {} is not *discordgo.Guild"
  end.

(** The first field access through the pointer: the object and its
    address, or the nil-pointer panic. *)
Definition derefGuild (p : option nat) : M (nat * Guild.t) :=
  g ← loadGuild p;
  match p with
  | Some i => mret (i, g)
  | None => panic nilDeref
  end.

Definition shuttingDown : string :=
  "{" +:+ quoted "error" +:+ ":" +:+
  quoted "Shutting down, try again in a minute" +:+ "}".

(** The text of a [*strconv.NumError] for an id that [strconv.Quote]
    leaves as it is. *)
Definition numErrorText (s : string) (e : NumError) : string :=
  "strconv.ParseInt: parsing " +:+ quoted s +:+ ": " +:+
  match e with
  | ErrSyntax => "invalid syntax"
  | ErrRange => "value out of range"
  end.

(** The loop of [ActiveServerMW] over the membership list. *)
Fixpoint findUserGuild (guildID : string) (guilds : list UserGuild.t)
    : option UserGuild.t :=
  match guilds with
  | [] => None
  | g :: rest =>
      if bool_decide (UserGuild.ID g = guildID) then Some g
      else findUserGuild guildID rest
  end.

(** The inner loop of [RequireBotMemberMW]: [found]. *)
Fixpoint hasRole (memberRoles : list string) (roleID : string) : bool :=
  match memberRoles with
  | [] => false
  | mr :: rest => if bool_decide (mr = roleID) then true else hasRole rest roleID
  end.

(** One round of the outer loop of [RequireBotMemberMW] on the pair
    ([highest], [combinedPerms]). *)
Definition roleStep (member : Member.t) (acc : option Role.t * Z)
    (role : Role.t) : option Role.t * Z :=
  let '(highest, combinedPerms) := acc in
  if negb (hasRole (Member.Roles member) (Role.ID role)) then acc
  else
    (match highest with
     | None => Some role
     | Some h =>
         if (Role.Position h <? Role.Position role)%Z then Some role
         else Some h
     end,
     Z.lor combinedPerms (Role.Permissions role)).

Definition aggregateRoles (member : Member.t) (roles : list Role.t)
    : option Role.t * Z :=
  fold_left (roleStep member) roles (None, 0%Z).

Section Middleware.
Context (env : Env).

Definition MiscMiddleware (inner : Handler) : Handler := fun r =>
  isAccepting ← gets accepting;
  if negb isAccepting then Write (Raw shuttingDown)
  else
    HeaderSet "Strict-Transport-Security" "max-age=31536000";;
    inner r.

Definition setFullGuild (ctx : Context) (guildID : string)
    : M (Context * option error) :=
  res ← fetchGuild env guildID;
  match res with
  | inr err =>
      log LError (Some err) [] "Failed retrieving guild";;
      mret (ctx, Some err)
  | inl g =>
      fullGuild ← newGuild g;
      ctx ← SetContextTemplateData ctx
              [("ActiveGuild", VGuild (Some fullGuild))];
      mret (WithValue ctx ContextKeyCurrentGuild (VGuild (Some fullGuild)),
            None)
  end.

(** The block that [ActiveServerMW] runs in both fallback branches;
    [note] is the text of its last log line. *)
Definition fallbackFullGuild (r : Request) (guildID note : string)
    : M Request :=
  '(ctx, err) ← setFullGuild (Ctx r) guildID;
  match err with
  | Some e => log LError (Some e) [] "Failed setting full guild"
  | None => mret tt
  end;;
  log LInfo None [] note;;
  mret (WithContext r ctx).

Definition activeServer (r : Request) : M Request :=
  let ctx := Ctx r in
  let guildID := ServerParam r in
  match ParseInt guildID with
  | inr e =>
      log LError (Some (EOther (numErrorText guildID e))) []
          "GuilID is not a number";;
      mret r
  | inl _ =>
      match Value ctx ContextKeyGuilds with
      | Some (VGuilds guilds) =>
          match findUserGuild guildID guilds with
          | None => fallbackFullGuild r guildID "Userguild not found"
          | Some userGuild =>
              fullGuild ← newGuild
                (Guild.mk (UserGuild.ID userGuild) (UserGuild.Name userGuild)
                          "" "" [] []);
              let ctx :=
                WithValue ctx ContextKeyCurrentUserGuild (VUserGuild userGuild) in
              let ctx :=
                WithValue ctx ContextKeyCurrentGuild (VGuild (Some fullGuild)) in
              isAdmin ← gets (IsAdminCtx env ctx);
              ctx ← SetContextTemplateData ctx
                      [("ActiveGuild", VGuild (Some fullGuild));
                       ("IsAdmin", VBool isAdmin)];
              mret (WithContext r ctx)
          end
      | _ =>
          fallbackFullGuild r guildID
            "No guilds, set full guild instead of userguild"
      end
  end.

Definition ActiveServerMW (inner : Handler) : Handler := fun r =>
  deferServe inner r (activeServer r).

Definition RequireActiveServer (inner : Handler) : Handler := fun r =>
  match Value (Ctx r) ContextKeyCurrentGuild with
  | None => Redirect "/?err=no_active_guild" StatusTemporaryRedirect
  | Some _ => inner r
  end.

Definition RequireServerAdminMiddleware (inner : Handler) : Handler := fun r =>
  isAdmin ← gets (IsAdminCtx env (Ctx r));
  if negb isAdmin then Redirect "/?err=noaccess" StatusTemporaryRedirect
  else inner r.

Definition RequireGuildChannelsMiddleware (inner : Handler) : Handler := fun r =>
  let ctx := Ctx r in
  guild ← assertGuild (Value ctx ContextKeyCurrentGuild);
  '(p, g) ← derefGuild guild;
  match GetGuildChannels env (Guild.ID g) with
  | inr err =>
      log LError (Some err) [] "Failed retrieving channels";;
      Redirect "/?err=retrievingchannels" StatusTemporaryRedirect
  | inl channels =>
      storeGuild p
        (Guild.mk (Guild.ID g) (Guild.Name g) (Guild.Region g)
                  (Guild.OwnerID g) (Guild.Roles g) channels);;
      let newCtx := WithValue ctx ContextKeyGuildChannels (VChannels channels) in
      inner (WithContext r newCtx)
  end.

Definition RequireFullGuildMW (inner : Handler) : Handler := fun r =>
  let ctx := Ctx r in
  guild ← assertGuild (Value ctx ContextKeyCurrentGuild);
  '(p, g) ← derefGuild guild;
  if negb (bool_decide (Guild.OwnerID g = "")) then inner r
  else
    res ← fetchGuild env (Guild.ID g);
    match res with
    | inr err =>
        log LError (Some err) [] "Failed retrieving guild";;
        Redirect "/?err=errretrievingguild" StatusTemporaryRedirect
    | inl fullGuild =>
        storeGuild p
          (Guild.mk (Guild.ID g) (Guild.Name g) (Guild.Region fullGuild)
                    (Guild.OwnerID fullGuild) (Guild.Roles fullGuild)
                    (Guild.Channels g));;
        inner r
    end.

(** The part of [RequireBotMemberMW] after the [defer]. *)
Definition botPermissions (r : Request) (ctx : Context) (member : Member.t)
    : M Request :=
  log LPrint None [] "Checking if guild is available";;
  match Value ctx ContextKeyCurrentGuild with
  | None => mret r
  | Some guild =>
      guildCast ← assertGuild (Some guild);
      '(_, g) ← derefGuild guildCast;
      if (length (Guild.Roles g) <? 1)%nat then mret r
      else
        log LPrint None [] "full guild available";;
        let '(highest, combinedPerms) :=
          aggregateRoles member (Guild.Roles g) in
        let ctx := WithValue ctx ContextKeyHighestBotRole (VRole highest) in
        let ctx := WithValue ctx ContextKeyBotPermissions (VInt combinedPerms) in
        ctx ← SetContextTemplateData ctx
                [("HighestRole", VRole highest);
                 ("BotPermissions", VInt combinedPerms)];
        mret (WithContext r ctx)
  end.

(** The two lookups at the head of [RequireBotMemberMW]. *)
Definition getBotMember (server : string) : M (Member.t + error) :=
  match GetBotMember env server with
  | inl member => mret (inl member)
  | inr err =>
      log LWarn (Some err) [] "FALLING BACK TO DISCORD API FOR BOT MEMBER";;
      let res := GuildMember env server (BotID env) in
      log LPrint None [] (BotID env);;
      mret res
  end.

Definition RequireBotMemberMW (inner : Handler) : Handler := fun r =>
  res ← getBotMember (ServerParam r);
  match res with
  | inr err =>
      log LError (Some err) [] "Failed retrieving bot member";;
      Redirect "/?err=errFailedRetrievingBotMember" StatusTemporaryRedirect
  | inl member =>
      ctx ← SetContextTemplateData (Ctx r) [("BotMember", VMember member)];
      let ctx := WithValue ctx ContextKeyBotMember (VMember member) in
      deferServe inner r (botPermissions r ctx member)
  end.

End Middleware.

(** ** Handler wrappers *)

(** [type CustomHandlerFunc func(w, r) interface{}] *)
Definition CustomHandlerFunc := Request -> M (option value).

(** [type ControllerHandlerFunc func(w, r) (TemplateData, error)]; the
    template data is a reference, [None] the nil map. *)
Definition ControllerHandlerFunc := Request -> M (option nat * option error).

(** [cast, ok := out.(error)] *)
Definition assertError (out : option value) : option error * bool :=
  match out with
  | Some (VError e) => (Some e, true)
  | _ => (None, false)
  end.

(** [public, ok := err.( *PublicError )] *)
Definition assertPublicError (err : option error)
    : option PublicError * bool :=
  match err with
  | Some (EPublic p) => (p, true)
  | _ => (None, false)
  end.

(** [ok := v.(bool)], unchecked. *)
Definition assertBool (v : option value) : M bool :=
  match v with
  | Some (VBool b) => mret b
  | _ => panic "interface conversion: interface {} is not bool"
  end.

(** [user, ok := v.( *discordgo.User )] *)
Definition assertUser (v : option value) : option User.t :=
  match v with
  | Some (VUser u) => Some u
  | _ => None
  end.

(** [type SimpleConfigSaver interface]: of the value [t] handed to
    [SimpleConfigSaverHandler] the wrapper uses its dynamic type (the form
    schema) and [t.Name()]. *)
Record SimpleConfigSaver := mkSaver {
  SaverType : FormSchema;
  SaverName : string
}.

(** [common.AddCPLogEntry(user, guildID, msg)] *)
Definition AddCPLogEntry (user : User.t) (guildID msg : string) : M unit :=
  modify (fun w => set_cplog (cplog w ++ [(user, guildID, msg)]) w).

Definition genericError : string := "An error occured... Contact support.".

Definition checkControllerError (guild : option nat) (data : option nat)
    (err : option error) : M unit :=
  match err with
  | None => mret tt
  | Some e =>
      match assertPublicError err with
      | (cast, true) =>
          match PublicError_Error cast with
          | Some m => AddAlerts data [ErrorAlert [m]]
          | None => panic nilDeref
          end
      | (_, false) => AddAlerts data [ErrorAlert [genericError]]
      end;;
      fields ← match guild with
               | None => mret []
               | Some _ => '(_, g) ← derefGuild guild; mret [("guild", Guild.ID g)]
               end;
      log LError (Some e) fields "Web handler reported error"
  end.

(** An [if extraHandler != nil { defer extraHandler.ServeHTTP(w, r) }] in
    front of [body]. *)
Definition deferExtra (extraHandler : option Handler) (r : Request)
    (body : M unit) : M unit :=
  match extraHandler with
  | Some h => defer_ (h r) body
  | None => body
  end.

Section Handlers.
Context (env : Env).

Definition APIHandler (inner : CustomHandlerFunc) : Handler := fun r =>
  out ← inner r;
  out ← match assertError out with
        | (cast, true) =>
            out ← match cast with
                  | None => mret (Some (VMap [("ok", VBool true)]))
                  | Some _ =>
                      out ← match assertPublicError cast with
                            | (Some public, true) =>
                                mret (Some (VMap [("ok", VBool false);
                                                  ("error", VString (msg public))]))
                            | (None, true) => panic nilDeref
                            | (_, false) => mret out
                            end;
                      log LError cast [("req", URL r)] "API Error";;
                      mret out
                  end;
            WriteHeader StatusInternalServerError;;
            mret out
        | (_, false) => mret out
        end;
  match out with
  | Some v => Write (JSON v)
  | None => mret tt
  end.

(** The parse call that [FormParserMW] selects by content type. *)
Definition parseBody (r : Request) : Values + error :=
  if Contains (ContentType r) "multipart/form-data"
  then ParseMultipartForm env r 100000
  else ParseForm env r.

(** The body of [FormParserMW] up to the call of [inner]: the request
    that [inner] is served. *)
Definition parseFormRequest (dst : FormSchema) (r : Request) : M Request :=
  match parseBody r with
  | inr _ => panic "FormParserMW: parse error"
  | inl form =>
      let r := mkRequest (Ctx r) (URL r) (ServerParam r) (ContentType r) form in
      let ctx := Ctx r in
      '(_, guild, tmpl) ← GetBaseCPContextData ctx;
      let '(decoded, err) := Decode env dst (Form r) in
      ok ← match err with
           | Some e =>
               log LError (Some e) [] "Failed decoding form";;
               AddAlerts (Some tmpl) [ErrorAlert ["Failed parsing form"]];;
               mret false
           | None => ValidateForm env guild tmpl decoded
           end;
      let newCtx := WithValue ctx ContextKeyParsedForm (VForm decoded) in
      let newCtx := WithValue newCtx ContextKeyFormOk (VBool ok) in
      mret (WithContext r newCtx)
  end.

Definition FormParserMW (inner : Handler) (dst : FormSchema) : Handler :=
  fun r => r' ← parseFormRequest dst r; inner r'.

(** [form := v.(SimpleConfigSaver)], unchecked. *)
Definition assertSaver (v : option value) : M FormValue :=
  match v with
  | Some (VForm f) =>
      if ImplementsSaver env f then mret f
      else panic "interface conversion: missing method Save"
  | _ => panic "interface conversion: interface {} is not SimpleConfigSaver"
  end.

(** [form.Save(client, guildID)], recording the call. *)
Definition saveForm (form : FormValue) (client : option nat)
    (guildID : string) : M (option error) :=
  modify (fun w => set_saved (saved w ++ [(form, guildID)]) w);;
  mret (Save env form client guildID).

(** The handler that [SimpleConfigSaverHandler] passes to
    [FormParserMW]. *)
Definition simpleConfigSaver (t : SimpleConfigSaver)
    (extraHandler : option Handler) : Handler := fun r =>
  let ctx := Ctx r in
  '(client, g, templateData) ← GetBaseCPContextData ctx;
  deferExtra extraHandler r (
    form ← assertSaver (Value ctx ContextKeyParsedForm);
    ok ← assertBool (Value ctx ContextKeyFormOk);
    if negb ok then mret tt
    else
      '(_, guild) ← derefGuild (Some g);
      err ← saveForm form client (Guild.ID guild);
      failed ← CheckErr env templateData err "Failed saving config";
      if negb failed then
        AddAlerts (Some templateData) [SucessAlert ["Sucessfully saved! :')"]];;
        match assertUser (Value ctx ContextKeyUser) with
        | Some user =>
            AddCPLogEntry user (Guild.ID guild)
              ("Updated " +:+ SaverName t +:+ " Config.")
        | None => mret tt
        end
      else mret tt).

Definition SimpleConfigSaverHandler (t : SimpleConfigSaver)
    (extraHandler : option Handler) : Handler :=
  FormParserMW (simpleConfigSaver t extraHandler) (SaverType t).

(** The function that [ControllerHandler] passes to [RenderHandler],
    which renders the returned data with the named template. *)
Definition controllerHandler (f : ControllerHandlerFunc)
    : CustomHandlerFunc := fun r =>
  let ctx := Ctx r in
  let guild := match Value ctx ContextKeyCurrentGuild with
               | Some (VGuild p) => p
               | _ => None
               end in
  '(data, err) ← f r;
  data ← match data with
         | Some d => mret d
         | None => '(_, d) ← GetCreateTemplateData ctx; mret d
         end;
  checkControllerError guild (Some data) err;;
  mret (Some (VTemplateData data)).

(** The handler that [ControllerPostHandler] passes to [FormParserMW];
    the audit entry is written by a goroutine, recorded here where it
    is started. *)
Definition controllerPost (mainHandler : ControllerHandlerFunc)
    (extraHandler : option Handler) (logMsg : string) : Handler := fun r =>
  let ctx := Ctx r in
  '(_, g, templateData) ← GetBaseCPContextData ctx;
  deferExtra extraHandler r (
    ok ← assertBool (Value ctx ContextKeyFormOk);
    if negb ok then mret tt
    else
      '(data, err) ← mainHandler r;
      let data := match data with
                  | Some d => d
                  | None => templateData
                  end in
      checkControllerError (Some g) (Some data) err;;
      match err with
      | None =>
          AddAlerts (Some data) [SucessAlert ["Sucessfully saved! :')"]];;
          match assertUser (Value ctx ContextKeyUser) with
          | Some user =>
              '(_, guild) ← derefGuild (Some g);
              AddCPLogEntry user (Guild.ID guild) logMsg
          | None => mret tt
          end
      | Some _ => mret tt
      end).

Definition ControllerPostHandler (mainHandler : ControllerHandlerFunc)
    (extraHandler : option Handler) (formData : FormSchema)
    (logMsg : string) : Handler :=
  FormParserMW (controllerPost mainHandler extraHandler logMsg) formData.

End Handlers.

(** * Vocabulary of the properties *)

(** ** The permission aggregate and the highest role *)

(** The aggregate as the spec words it: the bitwise OR of the permissions
    of the roles of [R] whose id is in [M]. *)
Definition specCombinedPerms (R : list Role.t) (M : list string) : Z :=
  foldr Z.lor 0%Z (Role.Permissions <$> filter (fun r => Role.ID r ∈ M) R).

(** The roles of the organization that the bot holds, in iteration
    order. *)
Definition matchingRoles (member : Member.t) (roles : list Role.t)
    : list Role.t :=
  filter (fun r => Role.ID r ∈ Member.Roles member) roles.

(** The values of a Go [int] on a 64-bit platform. *)
Definition isInt (x : Z) : Prop := (- 2 ^ 63 <= x < 2 ^ 63)%Z.

(** [highestIn h l]: [h] occurs in [l] after roles of strictly smaller
    position only and before roles of no greater position. *)
Definition highestIn (h : Role.t) (l : list Role.t) : Prop :=
  exists before after,
    l = before ++ h :: after /\
    Forall (fun x => (Role.Position x < Role.Position h)%Z) before /\
    Forall (fun x => (Role.Position x <= Role.Position h)%Z) after.

(** The state of the loop after the roles [seen]. *)
Definition highestInv (member : Member.t) (seen : list Role.t)
    (h : option Role.t) : Prop :=
  match h with
  | None => matchingRoles member seen = []
  | Some r => highestIn r (matchingRoles member seen)
  end.

(** ** Tactics that run a computation *)

Ltac unfold_monad :=
  unfold mbind, M_bind, mret, M_ret, bind, ret, modify, gets, panic in *.

Ltac run :=
  repeat (progress (unfold Write, WriteHeader, Redirect, HeaderSet, call, log;
                    unfold_monad; cbn)).

Ltac world_eq :=
  unfold set_writer, set_logs, set_guildHeap, set_tmplHeap, set_fetched,
    set_saved, set_cplog;
  cbn; rewrite <- ?app_assoc; reflexivity.

(** ** Worlds, requests and log entries that the statements name *)

(** The organization object after the upgrade: owner id, region and roles
    of the fetched record, every other field as it was. *)
Definition upgraded (g fullGuild : Guild.t) : Guild.t :=
  Guild.mk (Guild.ID g) (Guild.Name g) (Guild.Region fullGuild)
           (Guild.OwnerID fullGuild) (Guild.Roles fullGuild)
           (Guild.Channels g).

(** A world in which nothing has happened yet. *)
Definition emptyWorld (isAccepting : bool) : World :=
  mkWorld isAccepting [] [] (mkWriter ∅ []) [] [] [] [].

(** The world after the calls [cs] on the response writer. *)
Definition respond (cs : list WCall) (w : World) : World :=
  set_writer (mkWriter (Header (writer w)) (Calls (writer w) ++ cs)) w.

(** The world after one more log entry. *)
Definition logged (e : LogEntry) (w : World) : World :=
  set_logs (logs w ++ [e]) w.

Definition hstsKey : string := "Strict-Transport-Security".
Definition hstsValue : string := "max-age=31536000".

(** The world after [w.Header().Set] of the transport-security header. *)
Definition withHSTS (w : World) : World :=
  set_writer (mkWriter (<[hstsKey := [hstsValue]]> (Header (writer w)))
                       (Calls (writer w))) w.

(** The failure envelope of the spec, [{ok: false, error: m}]. *)
Definition failureEnvelope (m : string) : value :=
  VMap [("ok", VBool false); ("error", VString m)].

Definition apiErrorLog (r : Request) (e : error) : LogEntry :=
  mkLog LError "API Error" (Some e) [("req", URL r)].

(** The world after [alerts] were appended to the template data [t] that
    lives at address [d]. *)
Definition alerted (d : nat) (t : TemplateData) (alerts : list Alert)
    (w : World) : World :=
  set_tmplHeap (<[d := mkTemplateData (Data t) (Alerts t ++ alerts)]> (tmplHeap w)) w.


Definition controllerErrorLog (e : error) (fields : list (string * string))
    : LogEntry :=
  mkLog LError "Web handler reported error" (Some e) fields.

(** ** Well-formed contexts *)

(** The value under the template-data key, when there is one, is live
    template data. *)
Definition templateDataOK (ctx : Context) (w : World) : Prop :=
  match Value ctx ContextKeyTemplateData with
  | None => True
  | Some (VTemplateData tp) => is_Some (tmplHeap w !! tp)
  | Some _ => False
  end.

(** The value under the current-guild key, when there is one, is a
    pointer to a live guild object. *)
Definition guildLive (ctx : Context) (w : World) : Prop :=
  match Value ctx ContextKeyCurrentGuild with
  | None => True
  | Some (VGuild (Some p)) => is_Some (guildHeap w !! p)
  | Some _ => False
  end.

(** What [SetContextTemplateData] may change: the template heap and the
    template-data key. *)
Record tmplStep (ctx : Context) (w : World) (ctx' : Context) (w' : World)
    : Prop := mkTmplStep {
  step_values : forall k, k <> ContextKeyTemplateData ->
                          Value ctx' k = Value ctx k;
  step_tmpl : templateDataOK ctx' w';
  step_accepting : accepting w' = accepting w;
  step_guilds : guildHeap w' = guildHeap w;
  step_writer : writer w' = writer w;
  step_logs : logs w' = logs w;
  step_fetched : fetched w' = fetched w;
  step_saved : saved w' = saved w;
  step_cplog : cplog w' = cplog w
}.

(** The request is outside the membership data: the context holds no
    membership list, or the list has no entry with the requested id. *)
Definition notAMember (r : Request) : Prop :=
  forall guilds, Value (Ctx r) ContextKeyGuilds = Some (VGuilds guilds) ->
                 forall g, g ∈ guilds -> UserGuild.ID g <> ServerParam r.

Definition retrieveFailedLog (e : error) : LogEntry :=
  mkLog LError "Failed retrieving guild" (Some e) [].

Definition setFailedLog (e : error) : LogEntry :=
  mkLog LError "Failed setting full guild" (Some e) [].

(** The world after [http.Redirect] to [url]. *)
Definition redirected (url : string) (w : World) : World :=
  set_writer
    (mkWriter (<["Location" := [url]]> (Header (writer w)))
              (Calls (writer w) ++ [CWriteHeader StatusTemporaryRedirect])) w.

Definition assertionFailure : string :=
  "interface conversion: interface {} is not *discordgo.Guild".

(** The object after [guild.Channels = channels]. *)
Definition withChannels (g : Guild.t) (channels : list Channel.t) : Guild.t :=
  Guild.mk (Guild.ID g) (Guild.Name g) (Guild.Region g) (Guild.OwnerID g)
           (Guild.Roles g) channels.

(** The request that [FormParserMW] serves the inner handler: the parsed
    form values, and the decoded value and the outcome flag on top of the
    context. *)
Definition formRequest (r : Request) (form : Values) (decoded : FormValue)
    (ok : bool) : Request :=
  mkRequest
    (WithValue (WithValue (Ctx r) ContextKeyParsedForm (VForm decoded))
               ContextKeyFormOk (VBool ok))
    (URL r) (ServerParam r) (ContentType r) form.

Definition decodeFailedLog (e : error) : LogEntry :=
  mkLog LError "Failed decoding form" (Some e) [].

(** ** Sample data *)

Module Sample.

Definition roleA : Role.t := Role.mk "a" "mods" 1 2.
Definition roleB : Role.t := Role.mk "b" "admins" 2 5.
Definition roleC : Role.t := Role.mk "c" "bots" 4 2.

Definition stub : Guild.t := Guild.mk "42" "Lounge" "" "" [] [].

Definition full : Guild.t :=
  Guild.mk "42" "Lounge" "eu-west" "7" [roleA; roleB; roleC] [].

Definition bot : Member.t := Member.mk "42" ["c"; "a"].

Definition notFound : error := EOther "guild not found".

(** The guild 42 exists and the bot is a member of it; a form with a
    field named [bad] does not decode; any decoded form is valid and
    can be saved. *)
Definition env : Env :=
  mkEnv
    (fun id => if bool_decide (id = "42") then inl full else inr notFound)
    (fun id => inl [Channel.mk "1" "general"])
    (fun id => if bool_decide (id = "42") then inl bot else inr notFound)
    (fun id botID => inr notFound)
    "bot"
    (fun _ _ => false)
    (fun r => inl (Form r))
    (fun r _ => inl (Form r))
    (fun dst vals =>
       (mkForm (SchemaType dst) [],
        match vals with
        | ("bad", _) :: _ => Some (EOther "schema: invalid value")
        | _ => None
        end))
    (fun _ _ _ => mret true)
    (fun _ err _ => mret (match err with Some _ => true | None => false end))
    (fun _ => true)
    (fun _ _ _ => None).

Definition world (guilds : list Guild.t) (tmpls : list TemplateData)
    : World :=
  mkWorld true guilds tmpls (mkWriter ∅ []) [] [] [] [].

Definition request (ctx : Context) (form : Values) : Request :=
  mkRequest ctx "/cp/42/settings" "42" "application/x-www-form-urlencoded"
            form.

(** A context with the active organization at address 0 and render
    data at address 0. *)
Definition ctx0 : Context :=
  [(ContextKeyCurrentGuild, VGuild (Some 0));
   (ContextKeyTemplateData, VTemplateData 0)].

Definition tmpl0 : TemplateData := mkTemplateData ∅ [].

(** A handler that leaves a mark in the response. *)
Definition mark (s : string) : Handler := fun _ => Write (Raw s).

End Sample.

(** * The rest of the file *)

(** ** Requests for static files *)

(** The fields of [*http.Request] outside [Request] that the middlewares
    below read; [r.WithContext] copies them unchanged. *)
Record RequestInfo := mkInfo {
  Path : string;          (* r.URL.Path *)
  RemoteAddr : string     (* r.RemoteAddr *)
}.

(** [len(path) > 8 && path[:8] == "/static/"] *)
Definition isStaticPath (path : string) : bool :=
  (8 <? String.length path)%nat &&
  bool_decide (substring 0 8 path = "/static/").

(** [common.RedisPool]: taking a client from the pool and putting it
    back, as the pool does them. *)
Record RedisPool := mkPool {
  PoolGet : M (nat + error);
  PoolPut : nat -> M unit
}.

Definition RedisMiddleware (pool : RedisPool) (info : RequestInfo)
    (inner : Handler) : Handler := fun r =>
  if isStaticPath (Path info) then inner r
  else
    res ← PoolGet pool;
    match res with
    | inr err =>
        log LError (Some err) [] "Failed retrieving client from redis pool";;
        inner r
    | inl client =>
        defer_ (PoolPut pool client)
          (let ctx := WithValue (Ctx r) ContextKeyRedis (VRedis client) in
           inner (WithContext r ctx))
    end.

(** [common.Conf], [common.VERSION] and [botrest.BotIsRunning()], as
    [BaseTemplateDataMiddleware] reads them. *)
Record BaseConfig := mkBaseConfig {
  ConfClientID : string;
  ConfHost : string;
  VERSION : string;
  BotIsRunning : bool
}.

Definition BaseTemplateDataMiddleware (conf : BaseConfig) (info : RequestInfo)
    (inner : Handler) : Handler := fun r =>
  if isStaticPath (Path info) then inner r
  else
    let baseData :=
      [("ClientID", VString (ConfClientID conf));
       ("Host", VString (ConfHost conf));
       ("Version", VString (VERSION conf));
       ("BotRunning", VBool (BotIsRunning conf))] in
    ctx ← SetContextTemplateData (Ctx r) baseData;
    inner (WithContext r ctx).

(** ** The client address of the request log *)

(** [strings.SplitN(s, ":", 2)[0]]: the part of [s] in front of its
    first colon, all of [s] when it has none. *)
Fixpoint beforeColon (s : string) : string :=
  match s with
  | EmptyString => EmptyString
  | String c rest =>
      if bool_decide (c = ":"%char) then EmptyString
      else String c (beforeColon rest)
  end.

(** [addr] of [RequestLogger]. *)
Definition loggedAddr (info : RequestInfo) : string :=
  beforeColon (RemoteAddr info).

(** ** The permission report *)

(** [currentPerms = permsInterface.(int)], unchecked. *)
Definition assertInt (v : option value) : M Z :=
  match v with
  | Some (VInt n) => mret n
  | _ => panic "interface conversion: interface {} is not int"
  end.

(** [if acc != "" { acc += ", " }; acc += name] *)
Definition appendName (acc name : string) : string :=
  (if bool_decide (acc = "") then acc else acc +:+ ", ") +:+ name.

(** [stringPerms[perm]]: the zero value for a key that is not in the map. *)
Definition permName (stringPerms : gmap Z string) (perm : Z) : string :=
  default "" (stringPerms !! perm).

(** One round of the loop of [RequirePermMW] on the pair ([has],
    [missing]). *)
Definition permStep (stringPerms : gmap Z string) (currentPerms : Z)
    (acc : string * string) (perm : Z) : string * string :=
  let '(has, missing) := acc in
  if negb (Z.land currentPerms perm =? 0)%Z
  then (appendName has (permName stringPerms perm), missing)
  else (has, appendName missing (permName stringPerms perm)).

Definition permReport (stringPerms : gmap Z string) (currentPerms : Z)
    (perms : list Z) : string * string :=
  fold_left (permStep stringPerms currentPerms) perms ("", "").

Definition missingAlert (missing : string) : Alert :=
  ErrorAlert ["This plugin is missing the following permissions: "; missing;
              ", It may continue to work without the functionality that requires those permissions."].

Definition hasAlert (has : string) : Alert :=
  SucessAlert ["The bot has the following permissions used by this plugin: ";
               has].

(** [RequirePermMW(perms...)(inner)]; [stringPerms] is the table of the
    file, keyed by the permission constants of discordgo. *)
Definition RequirePermMW (stringPerms : gmap Z string) (perms : list Z)
    (inner : Handler) : Handler := fun r =>
  let ctx := Ctx r in
  let permsInterface := Value ctx ContextKeyBotPermissions in
  currentPerms ← match permsInterface with
                 | None =>
                     log LWarn None []
                       "Requires perms but no permsinterface available";;
                     mret 0%Z
                 | Some _ => assertInt permsInterface
                 end;
  let '(has, missing) := permReport stringPerms currentPerms perms in
  '(ctx, tmpl) ← GetCreateTemplateData ctx;
  (if bool_decide (missing = "") then mret tt
   else AddAlerts (Some tmpl) [missingAlert missing]);;
  (if bool_decide (has = "") then mret tt
   else AddAlerts (Some tmpl) [hasAlert has]);;
  inner (WithContext r ctx).

(** ** The managed organizations *)

Section ManagedGuilds.
Context {WrappedGuild : Type}.
Context (Owner : WrappedGuild -> bool) (Permissions : WrappedGuild -> Z).
Context (PermissionManageServer : Z).

(** The loop of [UserInfoMiddleware] that collects [managedGuilds] from
    the wrapped guilds; of a [*common.WrappedGuild] it reads [Owner] and
    [Permissions]. *)
Definition managedStep (managedGuilds : list WrappedGuild) (g : WrappedGuild)
    : list WrappedGuild :=
  if Owner g || negb (Z.land (Permissions g) PermissionManageServer =? 0)%Z
  then managedGuilds ++ [g]
  else managedGuilds.

Definition managedGuildsOf (wrapped : list WrappedGuild) : list WrappedGuild :=
  fold_left managedStep wrapped [].

End ManagedGuilds.

(** ** The template renderer *)




(** ** Vocabulary of the further properties *)


(** The stub that [ActiveServerMW] builds from a membership entry. *)
Definition stubOf (userGuild : UserGuild.t) : Guild.t :=
  Guild.mk (UserGuild.ID userGuild) (UserGuild.Name userGuild) "" "" [] [].

(** [strings.Join(names, ", ")] *)
Definition joinNames (names : list string) : string :=
  String.concat ", " names.

(** The permissions of [perms] that [currentPerms] has a bit of, and the
    others, in the order of [perms]. *)
Definition heldPerms (currentPerms : Z) (perms : list Z) : list Z :=
  filter (fun perm => Z.land currentPerms perm <> 0%Z) perms.

Definition lackingPerms (currentPerms : Z) (perms : list Z) : list Z :=
  filter (fun perm => Z.land currentPerms perm = 0%Z) perms.

(** The alerts of [RequirePermMW] for the two lists. *)
Definition permAlerts (has missing : string) : list Alert :=
  (if bool_decide (missing = "") then [] else [missingAlert missing]) ++
  (if bool_decide (has = "") then [] else [hasAlert has]).

Definition notANumberLog (guildID : string) (e : NumError) : LogEntry :=
  mkLog LError "GuilID is not a number"
        (Some (EOther (numErrorText guildID e))) [].

(** The success envelope that [APIHandler] builds in its branch
    [cast == nil]. *)
Definition okEnvelope : value := VMap [("ok", VBool true)].

(** The audit text of [SimpleConfigSaverHandler]. *)
Definition updatedConfigMsg (t : SimpleConfigSaver) : string :=
  "Updated " +:+ SaverName t +:+ " Config.".

Definition savedAlert : Alert := SucessAlert ["Sucessfully saved! :')"].

(** The world after one more audit-log entry. *)
Definition audited (user : User.t) (guildID msg : string) (w : World) : World :=
  set_cplog (cplog w ++ [(user, guildID, msg)]) w.

(** The world after [form.Save] was called. *)
Definition savedTo (form : FormValue) (guildID : string) (w : World) : World :=
  set_saved (saved w ++ [(form, guildID)]) w.

Module Sample2.

(** As [Sample.env], with a validation that rejects every form with an
    alert, and a save that fails. *)
Definition strictEnv : Env :=
  mkEnv (GetGuild Sample.env) (GetGuildChannels Sample.env)
    (GetBotMember Sample.env) (GuildMember Sample.env) (BotID Sample.env)
    (IsAdminCtx Sample.env) (ParseForm Sample.env)
    (ParseMultipartForm Sample.env) (Decode Sample.env)
    (fun _ tp _ =>
       AddAlerts (Some tp) [ErrorAlert ["Prefix is too long"]];; mret false)
    (CheckErr Sample.env) (ImplementsSaver Sample.env)
    (fun _ _ _ => Some (EOther "redis: connection refused")).

Definition user : User.t := User.mk "7" "owner".

(** [Sample.ctx0] of a logged-in user, after the form pipeline accepted
    the form [f]. *)
Definition acceptedCtx (f : FormValue) : Context :=
  [(ContextKeyFormOk, VBool true); (ContextKeyParsedForm, VForm f);
   (ContextKeyUser, VUser user);
   (ContextKeyCurrentGuild, VGuild (Some 0));
   (ContextKeyTemplateData, VTemplateData 0)].

Definition settings : FormValue := mkForm "Settings" [("prefix", "!")].

Definition saver : SimpleConfigSaver := mkSaver (mkSchema "Settings") "General".

(** Some entries of the table [stringPerms] of the file, under the values
    that discordgo gives the constants. *)
Definition stringPerms : gmap Z string :=
  {[ 1024%Z := "Read Messages"; 2048%Z := "Send Messages";
     8192%Z := "Manage Messages"; 2%Z := "Kick Members";
     4%Z := "Ban Members"; 32%Z := "Manage Server" ]}.

Definition conf : BaseConfig := mkBaseConfig "1234" "example.com" "0.9" true.

(** A pool with one client, which takes no part in the world. *)
Definition pool : RedisPool := mkPool (mret (inl 1%nat)) (fun _ => mret tt).


End Sample2.

Definition noPermsLog : LogEntry :=
  mkLog LWarn "Requires perms but no permsinterface available" None [].

(** A wrapped guild as [managedGuildsOf] reads it is managed when the
    user owns it or has the manage-server bit. *)
Definition isManaged {WrappedGuild : Type} (Owner : WrappedGuild -> bool)
    (Permissions : WrappedGuild -> Z) (PermissionManageServer : Z)
    (g : WrappedGuild) : Prop :=
  Owner g = true \/ Z.land (Permissions g) PermissionManageServer <> 0%Z.

(** The string has no colon. *)
Fixpoint noColon (s : string) : Prop :=
  match s with
  | EmptyString => True
  | String c rest => c <> ":"%char /\ noColon rest
  end.

Definition poolFailedLog (e : error) : LogEntry :=
  mkLog LError "Failed retrieving client from redis pool" (Some e) [].

(** * Properties *)

(** ** The permission aggregator: the loop *)

Lemma hasRole_elem_of (l : list string) (id : string) :
  hasRole l id = true <-> id ∈ l.
Proof.
  induction l as [|mr l IH]; simpl.
  - split; [discriminate | intros H; inversion H].
  - case_bool_decide as E.
    + subst. split; [intros _; left | reflexivity].
    + rewrite IH. split; [intros H; by right |].
      intros H. inversion H; subst; [congruence | assumption].
Qed.

Lemma hasRole_false (l : list string) (id : string) :
  hasRole l id = false <-> id ∉ l.
Proof.
  rewrite <- hasRole_elem_of. destruct (hasRole l id); split; congruence.
Qed.

Lemma roleStep_skip member acc role :
  Role.ID role ∉ Member.Roles member -> roleStep member acc role = acc.
Proof.
  intros H. apply hasRole_false in H. unfold roleStep.
  destruct acc as [h c]. by rewrite H.
Qed.

Lemma roleStep_take member h c role :
  Role.ID role ∈ Member.Roles member ->
  roleStep member (h, c) role =
    (match h with
     | None => Some role
     | Some h' =>
         if (Role.Position h' <? Role.Position role)%Z then Some role
         else Some h'
     end, Z.lor c (Role.Permissions role)).
Proof.
  intros H. apply hasRole_elem_of in H. unfold roleStep. by rewrite H.
Qed.

Lemma fold_roleStep_perms member roles h c :
  (fold_left (roleStep member) roles (h, c)).2 =
  Z.lor c (specCombinedPerms roles (Member.Roles member)).
Proof.
  revert h c. induction roles as [|role roles IH]; intros h c; cbn [fold_left].
  - unfold specCombinedPerms. simpl. by rewrite Z.lor_0_r.
  - unfold specCombinedPerms in *.
    destruct (decide (Role.ID role ∈ Member.Roles member)) as [Hin|Hout].
    + rewrite (roleStep_take _ _ _ _ Hin), IH.
      rewrite filter_cons_True by done. simpl. by rewrite Z.lor_assoc.
    + rewrite (roleStep_skip _ _ _ Hout), IH.
      by rewrite filter_cons_False by done.
Qed.

(** The loop computes the aggregate of the spec. *)
Lemma aggregateRoles_perms member roles :
  (aggregateRoles member roles).2 =
  specCombinedPerms roles (Member.Roles member).
Proof.
  unfold aggregateRoles. rewrite fold_roleStep_perms. apply Z.lor_0_l.
Qed.

(** Bitwise OR keeps two [int] values within [int]: the unbounded
    [Z.lor] is the machine operation. *)
Lemma lor_isInt (a b : Z) : isInt a -> isInt b -> isInt (Z.lor a b).
Proof.
  assert (Hshift : forall x, isInt x <-> (Z.shiftr x 63 = 0 \/ Z.shiftr x 63 = -1)%Z).
  { intros x. unfold isInt. rewrite Z.shiftr_div_pow2 by lia.
    change (2 ^ 63)%Z with 9223372036854775808%Z.
    split; intros H; Z.div_mod_to_equations; lia. }
  intros Ha Hb. apply Hshift in Ha, Hb. apply Hshift.
  rewrite Z.shiftr_lor.
  destruct Ha as [-> | ->], Hb as [-> | ->]; simpl; auto.
Qed.

(** X10: the aggregate of permissions that are [int] values is an [int]
    value: the bitwise OR never leaves the range of the machine integer,
    so no wrap-around can change the bitmask. *)
Lemma aggregateRoles_isInt member roles :
  Forall (fun r => isInt (Role.Permissions r)) roles ->
  isInt (aggregateRoles member roles).2.
Proof.
  unfold aggregateRoles.
  assert (H0 : isInt 0) by (unfold isInt; lia).
  revert H0. generalize 0%Z as c. generalize (@None Role.t) as h.
  induction roles as [|role roles IH]; intros h c Hc Hall; [exact Hc|].
  cbn [fold_left]. inversion Hall as [|? ? Hrole Hrest]; subst.
  destruct (decide (Role.ID role ∈ Member.Roles member)) as [Hin|Hout].
  - rewrite (roleStep_take _ _ _ _ Hin). apply IH; [|exact Hrest].
    by apply lor_isInt.
  - rewrite (roleStep_skip _ _ _ Hout). by apply IH.
Qed.

Lemma highestInv_step member seen h c role :
  highestInv member seen h ->
  highestInv member (seen ++ [role]) (roleStep member (h, c) role).1.
Proof.
  unfold highestInv, matchingRoles. intros Hinv. rewrite filter_app.
  destruct (decide (Role.ID role ∈ Member.Roles member)) as [Hin|Hout].
  - rewrite (roleStep_take _ _ _ _ Hin). simpl.
    rewrite filter_cons_True, filter_nil by done.
    destruct h as [h'|].
    + destruct Hinv as (b & a & -> & Hb & Ha).
      destruct (Z.ltb_spec (Role.Position h') (Role.Position role)) as [Hlt|Hge].
      * exists (b ++ h' :: a), []. split; [done|]. split; [|constructor].
        rewrite Forall_app, Forall_cons. repeat split.
        -- eapply Forall_impl; [exact Hb|]. simpl. intros; lia.
        -- done.
        -- eapply Forall_impl; [exact Ha|]. simpl. intros; lia.
      * exists b, (a ++ [role]). split; [by rewrite <- app_assoc|].
        split; [done|]. rewrite Forall_app. split; [done|].
        constructor; [done | constructor].
    + rewrite Hinv. exists [], []. repeat split; constructor.
  - rewrite (roleStep_skip _ _ _ Hout). simpl.
    rewrite filter_cons_False, filter_nil, app_nil_r by done. exact Hinv.
Qed.

Lemma fold_roleStep_highest member roles seen h c :
  highestInv member seen h ->
  highestInv member (seen ++ roles)
    (fold_left (roleStep member) roles (h, c)).1.
Proof.
  revert seen h c. induction roles as [|role roles IH]; intros seen h c Hinv.
  - simpl. by rewrite app_nil_r.
  - cbn [fold_left]. replace (seen ++ role :: roles) with ((seen ++ [role]) ++ roles)
      by (by rewrite <- app_assoc).
    destruct (roleStep member (h, c) role) as [h1 c1] eqn:E.
    apply IH. pose proof (highestInv_step member seen h c role Hinv) as H1.
    by rewrite E in H1.
Qed.

Lemma aggregateRoles_highest member roles :
  highestInv member roles (aggregateRoles member roles).1.
Proof.
  apply (fold_roleStep_highest member roles [] None 0%Z). reflexivity.
Qed.

(** C7: highest-role selection is a function of the iteration order.
    When no role of the organization is held by the bot the loop leaves
    [highest] nil; otherwise the selected role is the one held role that
    is preceded only by held roles of strictly smaller position and
    followed only by held roles of no greater position: a later role
    replaces it only with a strictly greater position, so on equal
    positions the earlier-seen role stays. *)
Theorem highest_role_first_of_greatest_position
    (member : Member.t) (roles : list Role.t) :
  match (aggregateRoles member roles).1 with
  | None => matchingRoles member roles = []
  | Some h =>
      exists before after,
        matchingRoles member roles = before ++ h :: after /\
        Forall (fun x => (Role.Position x < Role.Position h)%Z) before /\
        Forall (fun x => (Role.Position x <= Role.Position h)%Z) after
  end.
Proof.
  pose proof (aggregateRoles_highest member roles) as H.
  unfold highestInv, highestIn in H.
  destruct (aggregateRoles member roles).1; exact H.
Qed.

(** Two held roles of equal position: the one seen first is selected. *)
Example highest_role_tie :
  (aggregateRoles (Member.mk "1" ["a"; "b"])
     [Role.mk "a" "first" 1 5; Role.mk "x" "other" 4 9;
      Role.mk "b" "second" 2 5]).1
  = Some (Role.mk "a" "first" 1 5).
Proof. reflexivity. Qed.

(** ** Running computations *)

Lemma derefGuild_ok (p : nat) (g : Guild.t) (w : World) :
  guildHeap w !! p = Some g -> derefGuild (Some p) w = (Ok (p, g), w).
Proof.
  intros H. unfold derefGuild, loadGuild. unfold_monad. simpl. by rewrite H.
Qed.

Lemma derefGuild_nil (w : World) :
  derefGuild None w = (Panic nilDeref, w).
Proof. reflexivity. Qed.

Lemma guild_guard_run (r : Request) (w : World) (p : nat) (g : Guild.t)
    (k : nat * Guild.t -> M unit) :
  Value (Ctx r) ContextKeyCurrentGuild = Some (VGuild (Some p)) ->
  guildHeap w !! p = Some g ->
  (guild ← assertGuild (Value (Ctx r) ContextKeyCurrentGuild);
   x ← derefGuild guild; k x) w = k (p, g) w.
Proof.
  intros Hctx Hheap. rewrite Hctx. unfold assertGuild. unfold_monad.
  by rewrite (derefGuild_ok p g w Hheap).
Qed.

(** ** The full-record upgrade guard *)


(** A failed upgrade leaves every guild object as it was. *)
Lemma failed_upgrade_keeps_guilds (url : string) (e : LogEntry)
    (ids : list string) (w : World) :
  guildHeap (redirected url (logged e (set_fetched ids w))) = guildHeap w.
Proof. reflexivity. Qed.

(** ** The miscellaneous middleware *)

(** C8, as the code has it: while the process accepts requests the
    middleware sets [Strict-Transport-Security: max-age=31536000] and then
    serves the inner handler, whatever the path (static paths included);
    while it does not, it writes the shutting-down body and returns, and
    the header map is left as it was. *)
Theorem MiscMiddleware_sets_hsts_when_accepting
    (inner : Handler) (r : Request) (w : World) :
  MiscMiddleware inner r w =
    (if accepting w then inner r (withHSTS w)
     else (Ok tt, respond [CWrite (Raw shuttingDown)] w)) /\
  Header (writer (withHSTS w)) !! hstsKey = Some [hstsValue] /\
  Header (writer (respond [CWrite (Raw shuttingDown)] w)) = Header (writer w).
Proof.
  split; [|split].
  - unfold MiscMiddleware. run. destruct (accepting w); reflexivity.
  - apply lookup_insert_eq.
  - reflexivity.
Qed.

(** C8 as stated fails while the process is shutting down: the early-exit
    response is written and carries no transport-security header. *)
Lemma MiscMiddleware_shutdown_response_lacks_hsts :
  let w' := (MiscMiddleware (fun _ => mret tt) (Sample.request [] [])
               (emptyWorld false)).2 in
  Calls (writer w') = [CWrite (Raw shuttingDown)] /\
  Header (writer w') !! hstsKey = None.
Proof. split; reflexivity. Qed.

(** ** The JSON wrapper *)

Lemma respond_respond (a b : list WCall) (w : World) :
  respond b (respond a w) = respond (a ++ b) w.
Proof. unfold respond, set_writer. simpl. by rewrite <- app_assoc. Qed.

(** A successful assertion to the interface type [error] never yields the
    nil interface: the branch [cast == nil] of [APIHandler] is dead. *)
Lemma assertError_ok_not_nil (out : option value) (cast : option error) :
  assertError out = (cast, true) -> cast <> None.
Proof.
  destruct out as [[]|]; simpl; intros H; inversion H; discriminate.
Qed.

(** C3, as the code has it.  Let the handler return [out].
    (1) A non-nil [out] that is not an error is passed to the JSON encoder
    as it is and no status is forced.
    (2) A public error forces status 500 and the body is the envelope with
    ok false and the error's message.
    (3) Any other error forces status 500 and the error value itself is
    passed to the JSON encoder; no envelope is built.
    (4) Status 500 is forced if and only if [out] is an error, whether
    public or not (the nil pointer of type PublicError apart, whose
    message cannot be read). *)
Theorem APIHandler_response
    (inner : CustomHandlerFunc) (r : Request) (w w1 : World)
    (out : option value) :
  inner r w = (Ok out, w1) ->
  (forall v, out = Some v -> (forall e, v <> VError e) ->
     APIHandler inner r w = (Ok tt, respond [CWrite (JSON v)] w1)) /\
  (forall p, out = Some (VError (EPublic (Some p))) ->
     APIHandler inner r w =
       (Ok tt, respond [CWriteHeader StatusInternalServerError;
                        CWrite (JSON (failureEnvelope (msg p)))]
                 (logged (apiErrorLog r (EPublic (Some p))) w1))) /\
  (forall text, out = Some (VError (EOther text)) ->
     APIHandler inner r w =
       (Ok tt, respond [CWriteHeader StatusInternalServerError;
                        CWrite (JSON (VError (EOther text)))]
                 (logged (apiErrorLog r (EOther text)) w1))) /\
  (out <> Some (VError (EPublic None)) ->
     exists w2 new,
       APIHandler inner r w = (Ok tt, w2) /\
       Calls (writer w2) = Calls (writer w1) ++ new /\
       (CWriteHeader StatusInternalServerError ∈ new <->
        exists e, out = Some (VError e))).
Proof.
  intros Hin.
  assert (Hpub : forall p, out = Some (VError (EPublic (Some p))) ->
     APIHandler inner r w =
       (Ok tt, respond [CWriteHeader StatusInternalServerError;
                        CWrite (JSON (failureEnvelope (msg p)))]
                 (logged (apiErrorLog r (EPublic (Some p))) w1))).
  { intros p ->. unfold APIHandler. run. rewrite Hin. run.
    unfold respond, logged. world_eq. }
  assert (Hoth : forall text, out = Some (VError (EOther text)) ->
     APIHandler inner r w =
       (Ok tt, respond [CWriteHeader StatusInternalServerError;
                        CWrite (JSON (VError (EOther text)))]
                 (logged (apiErrorLog r (EOther text)) w1))).
  { intros text ->. unfold APIHandler. run. rewrite Hin. run.
    unfold respond, logged. world_eq. }
  assert (Hval : forall v, out = Some v -> (forall e, v <> VError e) ->
     APIHandler inner r w = (Ok tt, respond [CWrite (JSON v)] w1)).
  { intros v -> Hne. unfold APIHandler. run. rewrite Hin.
    destruct v; try reflexivity. by destruct (Hne e). }
  repeat split; try assumption.
  intros Hnil. destruct out as [v|].
  - destruct v;
      try (eexists _, [CWrite (JSON _)]; split;
           [apply Hval; [reflexivity | discriminate] |];
           split; [reflexivity |];
           split; [intros H; apply list_elem_of_singleton in H; discriminate
                  | intros [e He]; discriminate]).
    destruct e as [[p|]|text].
    + eexists _, _. split; [apply Hpub; reflexivity|].
      split; [reflexivity|]. split; [eauto | intros _; left].
    + congruence.
    + eexists _, _. split; [apply Hoth; reflexivity|].
      split; [reflexivity|]. split; [eauto | intros _; left].
  - exists w1, []. split.
    + unfold APIHandler. run. rewrite Hin. reflexivity.
    + split; [by rewrite app_nil_r|].
      split; [intros H; inversion H | intros [e He]; discriminate].
Qed.

(** C3 as stated fails for an error that is not public: the body is the
    encoding of the error value, not a failure envelope, whatever its
    message. *)
Lemma APIHandler_internal_error_is_not_enveloped :
  let w' := (APIHandler (fun _ => mret (Some (VError (EOther "boom"))))
               (Sample.request [] []) (emptyWorld true)).2 in
  Calls (writer w') =
    [CWriteHeader 500; CWrite (JSON (VError (EOther "boom")))] /\
  forall m, CWrite (JSON (failureEnvelope m)) ∉ Calls (writer w').
Proof.
  split; [reflexivity|].
  intros m H. cbn in H.
  apply elem_of_cons in H as [H|H]; [discriminate|].
  apply list_elem_of_singleton in H. discriminate.
Qed.

(** ** The controller adapter: error classification *)

Lemma AddAlerts_ok (d : nat) (t : TemplateData) (alerts : list Alert)
    (w : World) :
  tmplHeap w !! d = Some t ->
  AddAlerts (Some d) alerts w = (Ok tt, alerted d t alerts w).
Proof.
  intros H. unfold AddAlerts, loadTemplateData, storeTemplateData.
  unfold_monad. simpl. by rewrite H.
Qed.

Lemma Sprint_single (s : string) : Sprint [s] = s.
Proof. reflexivity. Qed.


(** A nil error leaves everything as it is. *)
Lemma checkControllerError_nil (guild data : option nat) (w : World) :
  checkControllerError guild data None w = (Ok tt, w).
Proof. reflexivity. Qed.

(** The page controller hands [checkControllerError] the organization
    that the context holds under the current-guild key, nil when there is
    none. *)
Lemma controllerHandler_uses_context_guild
    (f : ControllerHandlerFunc) (r : Request) (w w1 : World)
    (d : nat) (err : option error) :
  f r w = (Ok (Some d, err), w1) ->
  controllerHandler f r w =
    (checkControllerError
       (match Value (Ctx r) ContextKeyCurrentGuild with
        | Some (VGuild p) => p
        | _ => None
        end) (Some d) err;;
     mret (Some (VTemplateData d))) w1.
Proof.
  intros Hf. unfold controllerHandler. unfold_monad. by rewrite Hf.
Qed.

(** ** Well-formed contexts and the render data *)

Lemma SetContextTemplateData_total (ctx : Context)
    (data : list (string * value)) (w : World) :
  templateDataOK ctx w ->
  exists ctx' w',
    SetContextTemplateData ctx data w = (Ok ctx', w') /\
    tmplStep ctx w ctx' w'.
Proof.
  unfold templateDataOK, SetContextTemplateData. intros Hok.
  destruct (Value ctx ContextKeyTemplateData) as [v|] eqn:Ev.
  - destruct v; try contradiction. destruct Hok as [t Ht].
    unfold loadTemplateData, storeTemplateData. unfold_monad. simpl.
    rewrite Ht. eexists _, _. split; [reflexivity|].
    split; try reflexivity. unfold templateDataOK. rewrite Ev. simpl.
    exists (mkTemplateData (list_to_map data ∪ Data t) (Alerts t)).
    apply list_lookup_insert_eq. by eapply lookup_lt_Some.
  - unfold newTemplateData. unfold_monad. eexists _, _. split; [reflexivity|].
    split; try reflexivity.
    + intros k Hk. unfold WithValue. simpl. by rewrite decide_False.
    + unfold templateDataOK, WithValue. simpl.
      eexists. apply list_lookup_middle. reflexivity.
Qed.

Lemma WithContext_same (r : Request) : WithContext r (Ctx r) = r.
Proof. by destruct r. Qed.

(** ** The target-organization resolver *)

Lemma findUserGuild_None (guildID : string) (guilds : list UserGuild.t) :
  (forall g, g ∈ guilds -> UserGuild.ID g <> guildID) ->
  findUserGuild guildID guilds = None.
Proof.
  induction guilds as [|g guilds IH]; intros H; [reflexivity|]. simpl.
  rewrite bool_decide_eq_false_2 by (apply H; left).
  apply IH. intros g' Hg'. apply H. by right.
Qed.

Lemma findUserGuild_Some (guildID : string) (guilds : list UserGuild.t)
    (g : UserGuild.t) :
  findUserGuild guildID guilds = Some g ->
  g ∈ guilds /\ UserGuild.ID g = guildID.
Proof.
  induction guilds as [|g0 guilds IH]; [discriminate|]. simpl.
  case_bool_decide as E.
  - intros [= <-]. split; [left | exact E].
  - intros H. destruct (IH H). split; [by right | done].
Qed.

Lemma activeServer_fallback (env : Env) (r : Request) (w : World) (n : Z) :
  ParseInt (ServerParam r) = inl n ->
  notAMember r ->
  exists note,
    activeServer env r w = fallbackFullGuild env r (ServerParam r) note w.
Proof.
  intros Hnum Hnot. unfold activeServer. rewrite Hnum.
  destruct (Value (Ctx r) ContextKeyGuilds) as [v|] eqn:Ev; [|eauto].
  destruct v; eauto.
  rewrite (findUserGuild_None _ gs (Hnot gs Ev)). eauto.
Qed.

(** C5: for a numeric id outside the membership data, on a context whose
    render data (if any) is live,
    (1) when the fetch returns the record [g], a new organization object
    holding [g] is stored under the current-guild key of the context that
    the inner handler is served, after exactly one fetch of that id;
    (2) when the fetch fails, the inner handler is still served, with the
    request as it came in (no current-guild entry is added), no
    organization object is created, and the failure is logged twice at
    error level before the closing info line. *)
Theorem ActiveServerMW_falls_back_to_full_fetch
    (env : Env) (r : Request) (w : World) (n : Z) :
  ParseInt (ServerParam r) = inl n ->
  notAMember r ->
  templateDataOK (Ctx r) w ->
  (forall g, GetGuild env (ServerParam r) = inl g ->
     exists ctx' w',
       (forall inner,
          ActiveServerMW env inner r w = inner (WithContext r ctx') w') /\
       Value ctx' ContextKeyCurrentGuild =
         Some (VGuild (Some (length (guildHeap w)))) /\
       guildHeap w' = guildHeap w ++ [g] /\
       fetched w' = fetched w ++ [ServerParam r]) /\
  (forall e, GetGuild env (ServerParam r) = inr e ->
     exists w' note,
       (forall inner, ActiveServerMW env inner r w = inner r w') /\
       guildHeap w' = guildHeap w /\
       tmplHeap w' = tmplHeap w /\
       fetched w' = fetched w ++ [ServerParam r] /\
       logs w' = logs w ++ [retrieveFailedLog e; setFailedLog e;
                            mkLog LInfo note None []]).
Proof.
  intros Hnum Hnot Htmpl.
  destruct (activeServer_fallback env r w n Hnum Hnot) as [note Hfb].
  split.
  - intros g Hget.
    set (w1 := set_guildHeap (guildHeap w ++ [g])
                 (set_fetched (fetched w ++ [ServerParam r]) w)).
    destruct (SetContextTemplateData_total (Ctx r)
                [("ActiveGuild", VGuild (Some (length (guildHeap w))))] w1)
      as (ctx1 & w2 & Hset & Hstep); [exact Htmpl|].
    exists (WithValue ctx1 ContextKeyCurrentGuild
              (VGuild (Some (length (guildHeap w))))),
           (logged (mkLog LInfo note None []) w2).
    split; [|split; [|split]].
    + intros inner. unfold ActiveServerMW, deferServe. rewrite Hfb.
      unfold fallbackFullGuild, setFullGuild, fetchGuild, newGuild.
      run. rewrite Hget. run. fold w1. rewrite Hset. reflexivity.
    + reflexivity.
    + simpl. by rewrite (step_guilds _ _ _ _ Hstep).
    + simpl. by rewrite (step_fetched _ _ _ _ Hstep).
  - intros e Hget. eexists _, note. split.
    + intros inner. unfold ActiveServerMW, deferServe. rewrite Hfb.
      unfold fallbackFullGuild, setFullGuild, fetchGuild.
      run. rewrite Hget. run. rewrite WithContext_same. reflexivity.
    + simpl. rewrite <- !app_assoc. repeat split.
Qed.

(** ** The permission aggregator: the middleware *)

Lemma getBotMember_world (env : Env) (server : string) (w w0 : World)
    (res : Member.t + error) :
  getBotMember env server w = (Ok res, w0) ->
  guildHeap w0 = guildHeap w /\ tmplHeap w0 = tmplHeap w.
Proof.
  unfold getBotMember. destruct (GetBotMember env server); run.
  - intros [= <- <-]. done.
  - intros [= <- <-]. done.
Qed.

Lemma templateDataOK_tmplHeap (ctx : Context) (w w' : World) :
  tmplHeap w' = tmplHeap w -> templateDataOK ctx w -> templateDataOK ctx w'.
Proof. unfold templateDataOK. by intros ->. Qed.

Lemma length_lt_1_false {A} (l : list A) :
  l <> [] -> (length l <=? 0)%nat = false.
Proof. destruct l; [congruence | reflexivity]. Qed.

Lemma botPermissions_no_guild (r : Request) (ctx : Context)
    (member : Member.t) (w : World) :
  Value ctx ContextKeyCurrentGuild = None ->
  botPermissions r ctx member w =
    (Ok r, logged (mkLog LPrint "Checking if guild is available" None []) w).
Proof. intros H. unfold botPermissions. run. by rewrite H. Qed.

Lemma botPermissions_no_roles (r : Request) (ctx : Context)
    (member : Member.t) (w : World) (p : nat) (g : Guild.t) :
  Value ctx ContextKeyCurrentGuild = Some (VGuild (Some p)) ->
  guildHeap w !! p = Some g ->
  Guild.Roles g = [] ->
  botPermissions r ctx member w =
    (Ok r, logged (mkLog LPrint "Checking if guild is available" None []) w).
Proof.
  intros Hv Hp Hr. unfold botPermissions. run. rewrite Hv. run.
  rewrite derefGuild_ok with (g := g) by exact Hp. by rewrite Hr.
Qed.

Lemma botPermissions_aggregates (r : Request) (ctx : Context)
    (member : Member.t) (w : World) (p : nat) (g : Guild.t) :
  Value ctx ContextKeyCurrentGuild = Some (VGuild (Some p)) ->
  guildHeap w !! p = Some g ->
  Guild.Roles g <> [] ->
  templateDataOK ctx w ->
  exists ctx' w',
    botPermissions r ctx member w = (Ok (WithContext r ctx'), w') /\
    Value ctx' ContextKeyBotPermissions =
      Some (VInt (aggregateRoles member (Guild.Roles g)).2) /\
    Value ctx' ContextKeyHighestBotRole =
      Some (VRole (aggregateRoles member (Guild.Roles g)).1) /\
    Value ctx' ContextKeyBotMember = Value ctx ContextKeyBotMember /\
    guildHeap w' = guildHeap w.
Proof.
  intros Hv Hp Hr Hok.
  destruct (aggregateRoles member (Guild.Roles g)) as [highest perms] eqn:Eagg.
  set (w1 := logged (mkLog LPrint "full guild available" None [])
               (logged (mkLog LPrint "Checking if guild is available" None []) w)).
  set (ctx2 := WithValue (WithValue ctx ContextKeyHighestBotRole (VRole highest))
                 ContextKeyBotPermissions (VInt perms)).
  destruct (SetContextTemplateData_total ctx2
              [("HighestRole", VRole highest); ("BotPermissions", VInt perms)] w1)
    as (ctx3 & w2 & Hset & Hstep); [exact Hok|].
  exists ctx3, w2. split; [|split; [|split; [|split]]].
  - unfold botPermissions. run. rewrite Hv. run.
    rewrite derefGuild_ok with (g := g) by exact Hp.
    rewrite (length_lt_1_false _ Hr). rewrite Eagg.
    fold ctx2. change (set_logs _ (set_logs _ w)) with w1.
    rewrite Hset. reflexivity.
  - by rewrite (step_values _ _ _ _ Hstep).
  - by rewrite (step_values _ _ _ _ Hstep).
  - by rewrite (step_values _ _ _ _ Hstep).
  - by rewrite (step_guilds _ _ _ _ Hstep).
Qed.

(** C1: let the lookups at the head of the middleware yield the bot
    member [member], on a context whose render data (if any) is live.
    (1) When the active organization [g] has roles, the inner handler is
    served a context whose permission entry is the bitwise OR of the
    permissions of exactly those roles of [g] whose id is in the member's
    role ids, next to the highest role found by the loop.
    (2) When [g] has no role, and (3) when the context has no active
    organization, the inner handler is served the request as it came in:
    neither a permission value nor a highest role is stored. *)
Theorem RequireBotMemberMW_aggregates_permissions
    (env : Env) (r : Request) (w w0 : World) (member : Member.t) :
  getBotMember env (ServerParam r) w = (Ok (inl member), w0) ->
  templateDataOK (Ctx r) w ->
  (forall p g,
     Value (Ctx r) ContextKeyCurrentGuild = Some (VGuild (Some p)) ->
     guildHeap w !! p = Some g ->
     Guild.Roles g <> [] ->
     exists ctx' w',
       (forall inner,
          RequireBotMemberMW env inner r w = inner (WithContext r ctx') w') /\
       Value ctx' ContextKeyBotPermissions =
         Some (VInt (specCombinedPerms (Guild.Roles g) (Member.Roles member))) /\
       Value ctx' ContextKeyHighestBotRole =
         Some (VRole (aggregateRoles member (Guild.Roles g)).1) /\
       Value ctx' ContextKeyBotMember = Some (VMember member)) /\
  (forall p g,
     Value (Ctx r) ContextKeyCurrentGuild = Some (VGuild (Some p)) ->
     guildHeap w !! p = Some g ->
     Guild.Roles g = [] ->
     exists w',
       forall inner, RequireBotMemberMW env inner r w = inner r w') /\
  (Value (Ctx r) ContextKeyCurrentGuild = None ->
     exists w',
       forall inner, RequireBotMemberMW env inner r w = inner r w').
Proof.
  intros Hmem Hok.
  destruct (getBotMember_world _ _ _ _ _ Hmem) as [Hg0 Ht0].
  destruct (SetContextTemplateData_total (Ctx r)
              [("BotMember", VMember member)] w0)
    as (ctx1 & w1 & Hset & Hstep);
    [by apply (templateDataOK_tmplHeap _ w) |].
  set (ctx := WithValue ctx1 ContextKeyBotMember (VMember member)).
  assert (Hrun : forall inner,
    RequireBotMemberMW env inner r w =
    deferServe inner r (botPermissions r ctx member) w1).
  { intros inner. unfold RequireBotMemberMW. unfold_monad.
    rewrite Hmem, Hset. reflexivity. }
  assert (Hval : Value ctx ContextKeyCurrentGuild =
                 Value (Ctx r) ContextKeyCurrentGuild).
  { unfold ctx, WithValue. simpl. by rewrite (step_values _ _ _ _ Hstep). }
  assert (Hheap : guildHeap w1 = guildHeap w).
  { by rewrite (step_guilds _ _ _ _ Hstep). }
  split; [|split].
  - intros p g Hv Hp Hr.
    destruct (botPermissions_aggregates r ctx member w1 p g)
      as (ctx' & w' & Hbp & Hperm & Hhigh & Hbm & _).
    + by rewrite Hval.
    + by rewrite Hheap.
    + exact Hr.
    + unfold templateDataOK, ctx, WithValue. simpl.
      exact (step_tmpl _ _ _ _ Hstep).
    + exists ctx', w'. split; [|split; [|split]].
      * intros inner. rewrite Hrun. unfold deferServe. by rewrite Hbp.
      * rewrite Hperm. by rewrite aggregateRoles_perms.
      * exact Hhigh.
      * rewrite Hbm. reflexivity.
  - intros p g Hv Hp Hr. eexists. intros inner. rewrite Hrun.
    unfold deferServe.
    rewrite (botPermissions_no_roles r ctx member w1 p g); try done.
    + by rewrite Hval.
    + by rewrite Hheap.
  - intros Hv. eexists. intros inner. rewrite Hrun. unfold deferServe.
    rewrite botPermissions_no_guild; [done|]. by rewrite Hval.
Qed.

(** ** The unchecked guild assertions *)

(** C10: both middlewares assert the type of the current-guild value of
    the context without a check.
    (1) On a context without an active guild each of them panics with the
    failed assertion, before any effect; behind [RequireActiveServer] the
    same request is redirected and neither of them is run.
    (2) On a context whose current-guild value is a live guild object,
    [RequireActiveServer] hands the request on unchanged and each of the
    two continues past the assertion: the channel loader fetches the
    channels of that guild and the upgrade guard tests its owner id. *)
Theorem guild_assertion_needs_active_guild
    (env : Env) (inner : Handler) (r : Request) (w : World) :
  (Value (Ctx r) ContextKeyCurrentGuild = None ->
     RequireGuildChannelsMiddleware env inner r w = (Panic assertionFailure, w) /\
     RequireFullGuildMW env inner r w = (Panic assertionFailure, w) /\
     RequireActiveServer (RequireGuildChannelsMiddleware env inner) r w =
       (Ok tt, redirected "/?err=no_active_guild" w) /\
     RequireActiveServer (RequireFullGuildMW env inner) r w =
       (Ok tt, redirected "/?err=no_active_guild" w)) /\
  (forall p g,
     Value (Ctx r) ContextKeyCurrentGuild = Some (VGuild (Some p)) ->
     guildHeap w !! p = Some g ->
     (forall next : Handler, RequireActiveServer next r w = next r w) /\
     RequireGuildChannelsMiddleware env inner r w =
       match GetGuildChannels env (Guild.ID g) with
       | inr err =>
           (Ok tt, redirected "/?err=retrievingchannels"
                     (logged (mkLog LError "Failed retrieving channels"
                                (Some err) []) w))
       | inl channels =>
           inner (WithContext r (WithValue (Ctx r) ContextKeyGuildChannels
                                   (VChannels channels)))
                 (set_guildHeap (<[p := withChannels g channels]> (guildHeap w)) w)
       end /\
     RequireFullGuildMW env inner r w =
       if bool_decide (Guild.OwnerID g = "") then
         match GetGuild env (Guild.ID g) with
         | inr err =>
             (Ok tt, redirected "/?err=errretrievingguild"
                       (logged (retrieveFailedLog err)
                          (set_fetched (fetched w ++ [Guild.ID g]) w)))
         | inl fullGuild =>
             inner r (set_guildHeap (<[p := upgraded g fullGuild]> (guildHeap w))
                        (set_fetched (fetched w ++ [Guild.ID g]) w))
         end
       else inner r w).
Proof.
  split.
  - intros Hnone. repeat split.
    + unfold RequireGuildChannelsMiddleware. by rewrite Hnone.
    + unfold RequireFullGuildMW. by rewrite Hnone.
    + unfold RequireActiveServer. by rewrite Hnone.
    + unfold RequireActiveServer. by rewrite Hnone.
  - intros p g Hctx Hheap. split; [|split].
    + intros next. unfold RequireActiveServer. by rewrite Hctx.
    + unfold RequireGuildChannelsMiddleware.
      etransitivity;
        [apply (guild_guard_run r w p g (fun x => let '(p0, g0) := x in _) Hctx Hheap)|].
      simpl. destruct (GetGuildChannels env (Guild.ID g)); reflexivity.
    + unfold RequireFullGuildMW.
      etransitivity;
        [apply (guild_guard_run r w p g (fun x => let '(p0, g0) := x in _) Hctx Hheap)|].
      simpl. destruct (bool_decide (Guild.OwnerID g = "")); [|reflexivity].
      simpl. unfold fetchGuild. run.
      destruct (GetGuild env (Guild.ID g)); reflexivity.
Qed.

(** ** The form pipeline *)

Lemma GetBaseCPContextData_ok (ctx : Context) (g tp : nat) (w : World) :
  Value ctx ContextKeyCurrentGuild = Some (VGuild (Some g)) ->
  Value ctx ContextKeyTemplateData = Some (VTemplateData tp) ->
  GetBaseCPContextData ctx w = (Ok (RedisClientFromContext ctx, g, tp), w).
Proof. intros Hg Ht. unfold GetBaseCPContextData. by rewrite Hg, Ht. Qed.

(** With the outcome flag false the saving closure does nothing but run
    the extra handler, if there is one. *)
Lemma simpleConfigSaver_skips (env : Env) (t : SimpleConfigSaver)
    (extra : option Handler) (r : Request) (w : World)
    (g tp : nat) (f : FormValue) :
  Value (Ctx r) ContextKeyCurrentGuild = Some (VGuild (Some g)) ->
  Value (Ctx r) ContextKeyTemplateData = Some (VTemplateData tp) ->
  Value (Ctx r) ContextKeyParsedForm = Some (VForm f) ->
  ImplementsSaver env f = true ->
  Value (Ctx r) ContextKeyFormOk = Some (VBool false) ->
  simpleConfigSaver env t extra r w = deferExtra extra r (mret tt) w.
Proof.
  intros Hg Ht Hf Himpl Hok. unfold simpleConfigSaver. unfold_monad.
  rewrite (GetBaseCPContextData_ok _ g tp w Hg Ht).
  rewrite Hf, Hok. unfold assertSaver. rewrite Himpl.
  destruct extra; reflexivity.
Qed.

Lemma controllerPost_skips (env : Env) (mainHandler : ControllerHandlerFunc)
    (extra : option Handler) (logMsg : string) (r : Request) (w : World)
    (g tp : nat) :
  Value (Ctx r) ContextKeyCurrentGuild = Some (VGuild (Some g)) ->
  Value (Ctx r) ContextKeyTemplateData = Some (VTemplateData tp) ->
  Value (Ctx r) ContextKeyFormOk = Some (VBool false) ->
  controllerPost mainHandler extra logMsg r w = deferExtra extra r (mret tt) w.
Proof.
  intros Hg Ht Hok. unfold controllerPost. unfold_monad.
  rewrite (GetBaseCPContextData_ok _ g tp w Hg Ht).
  rewrite Hok. destruct extra; reflexivity.
Qed.

(** C4: let the body parse to [form], on a context that holds the active
    organization and the render data [t] at address [tp].
    (1) When the decode fails, the generic alert is appended to the
    render data, the outcome flag stored in the context is false, and the
    inner handler is served all the same.
    (2) Whenever the stored outcome flag is false, the closures of
    [SimpleConfigSaverHandler] and [ControllerPostHandler] do nothing but
    run the extra handler, if any: no [Save], no main handler.
    (3) When the decode succeeds and the validation passes, the outcome
    flag stored in the context is true and the decoded value is stored
    under the parsed-form key. *)
Theorem FormParserMW_outcome
    (env : Env) (dst : FormSchema) (r : Request) (w : World)
    (form : Values) (g tp : nat) (t : TemplateData) :
  parseBody env r = inl form ->
  Value (Ctx r) ContextKeyCurrentGuild = Some (VGuild (Some g)) ->
  Value (Ctx r) ContextKeyTemplateData = Some (VTemplateData tp) ->
  tmplHeap w !! tp = Some t ->
  (forall decoded e, Decode env dst form = (decoded, Some e) ->
     let w' := alerted tp t [ErrorAlert ["Failed parsing form"]]
                 (logged (decodeFailedLog e) w) in
     (forall inner,
        FormParserMW env inner dst r w =
          inner (formRequest r form decoded false) w') /\
     Value (Ctx (formRequest r form decoded false)) ContextKeyFormOk =
       Some (VBool false) /\
     (exists t', tmplHeap w' !! tp = Some t' /\
                 ErrorAlert ["Failed parsing form"] ∈ Alerts t')) /\
  (forall decoded ok (w1 : World),
     Value (Ctx (formRequest r form decoded ok)) ContextKeyFormOk =
       Some (VBool false) ->
     (forall saver extra, ImplementsSaver env decoded = true ->
        simpleConfigSaver env saver extra (formRequest r form decoded ok) w1 =
          deferExtra extra (formRequest r form decoded ok) (mret tt) w1) /\
     (forall mainHandler extra logMsg,
        controllerPost mainHandler extra logMsg
          (formRequest r form decoded ok) w1 =
          deferExtra extra (formRequest r form decoded ok) (mret tt) w1)) /\
  (forall decoded w1, Decode env dst form = (decoded, None) ->
     ValidateForm env g tp decoded w = (Ok true, w1) ->
     (forall inner,
        FormParserMW env inner dst r w =
          inner (formRequest r form decoded true) w1) /\
     Value (Ctx (formRequest r form decoded true)) ContextKeyFormOk =
       Some (VBool true) /\
     Value (Ctx (formRequest r form decoded true)) ContextKeyParsedForm =
       Some (VForm decoded)).
Proof.
  intros Hparse Hg Ht Hheap. split; [|split].
  - intros decoded e Hdec w'. split; [|split].
    + intros inner. unfold FormParserMW, parseFormRequest. rewrite Hparse.
      unfold_monad. cbn [Ctx Form].
      rewrite (GetBaseCPContextData_ok _ g tp w Hg Ht). rewrite Hdec.
      unfold log. unfold_monad.
      rewrite (AddAlerts_ok tp t _ (logged (decodeFailedLog e) w) Hheap).
      reflexivity.
    + reflexivity.
    + eexists. split.
      * subst w'. unfold alerted. simpl. apply list_lookup_insert_eq.
        by eapply lookup_lt_Some.
      * simpl. apply elem_of_app. right. left.
  - intros decoded ok w1 Hok. split.
    + intros saver extra Himpl.
      by apply (simpleConfigSaver_skips env saver extra _ w1 g tp decoded).
    + intros mainHandler extra logMsg.
      by apply (controllerPost_skips env mainHandler extra logMsg _ w1 g tp).
  - intros decoded w1 Hdec Hval. split; [|split]; [|reflexivity..].
    intros inner. unfold FormParserMW, parseFormRequest. rewrite Hparse.
    unfold_monad. cbn [Ctx Form].
    rewrite (GetBaseCPContextData_ok _ g tp w Hg Ht). rewrite Hdec.
    rewrite Hval. reflexivity.
Qed.

(** ** The extra handler of the saving wrappers *)

(** A request that came out of [FormParserMW] holds the active
    organization and the render data. *)
Lemma parseFormRequest_base (env : Env) (dst : FormSchema)
    (r0 r : Request) (w0 w : World) :
  parseFormRequest env dst r0 w0 = (Ok r, w) ->
  exists g tp,
    Value (Ctx r) ContextKeyCurrentGuild = Some (VGuild (Some g)) /\
    Value (Ctx r) ContextKeyTemplateData = Some (VTemplateData tp).
Proof.
  unfold parseFormRequest. destruct (parseBody env r0) as [form|e];
    [|discriminate].
  unfold_monad. cbn [Ctx Form]. unfold GetBaseCPContextData at 1.
  destruct (Value (Ctx r0) ContextKeyCurrentGuild) as [v|] eqn:Eg;
    [|discriminate].
  destruct v as [[g|]| | | | | | | | | | | | | |]; try discriminate.
  destruct (Value (Ctx r0) ContextKeyTemplateData) as [v|] eqn:Et;
    [|discriminate].
  destruct v; try discriminate.
  unfold_monad. destruct (Decode env dst form) as [decoded err].
  assert (Hgoal : forall (ok : bool) (w1 : World),
    (Ok (WithContext (mkRequest (Ctx r0) (URL r0) (ServerParam r0)
                        (ContentType r0) form)
           (WithValue (WithValue (Ctx r0) ContextKeyParsedForm (VForm decoded))
                      ContextKeyFormOk (VBool ok))), w1) = (Ok r, w) ->
    exists g' tp',
      Value (Ctx r) ContextKeyCurrentGuild = Some (VGuild (Some g')) /\
      Value (Ctx r) ContextKeyTemplateData = Some (VTemplateData tp')).
  { intros ok w1 [= <- <-]. exists g, p. simpl. by rewrite Eg, Et. }
  destruct err as [e|].
  - unfold log. unfold_monad.
    destruct (AddAlerts _ _ _) as [[[]|s] w1]; [|discriminate].
    apply Hgoal.
  - destruct (ValidateForm env g p decoded w0) as [[ok|s] w1]; [|discriminate].
    apply Hgoal.
Qed.

Lemma deferExtra_Some (extra : Handler) (r : Request) (body : M unit)
    (w : World) :
  deferExtra (Some extra) r body w = runDeferred (extra r) (body w).
Proof. reflexivity. Qed.

Lemma simpleConfigSaver_defers (env : Env) (t : SimpleConfigSaver)
    (extra : Handler) (r : Request) (w : World) (g tp : nat) :
  Value (Ctx r) ContextKeyCurrentGuild = Some (VGuild (Some g)) ->
  Value (Ctx r) ContextKeyTemplateData = Some (VTemplateData tp) ->
  simpleConfigSaver env t (Some extra) r w =
    runDeferred (extra r) (simpleConfigSaver env t None r w).
Proof.
  intros Hg Ht. unfold simpleConfigSaver. unfold_monad.
  rewrite (GetBaseCPContextData_ok _ g tp w Hg Ht). reflexivity.
Qed.

Lemma controllerPost_defers (mainHandler : ControllerHandlerFunc)
    (extra : Handler) (logMsg : string) (r : Request) (w : World)
    (g tp : nat) :
  Value (Ctx r) ContextKeyCurrentGuild = Some (VGuild (Some g)) ->
  Value (Ctx r) ContextKeyTemplateData = Some (VTemplateData tp) ->
  controllerPost mainHandler (Some extra) logMsg r w =
    runDeferred (extra r) (controllerPost mainHandler None logMsg r w).
Proof.
  intros Hg Ht. unfold controllerPost. unfold_monad.
  rewrite (GetBaseCPContextData_ok _ g tp w Hg Ht). reflexivity.
Qed.

(** C9: whenever the form pipeline hands the request [r] on to the
    closure of a saving wrapper built with an extra handler, the wrapper
    is the wrapper without extra handler followed by one run of the extra
    handler on the world that was left, whatever the outcome was: the
    flag false and nothing persisted, the main handler or the save
    failing, or a panic after the [defer].  When the form pipeline panics
    instead, the wrapper panics and does not return. *)
Theorem extra_handler_runs_on_every_outcome (env : Env) (extra : Handler) :
  (forall t r0 w0 r w,
     parseFormRequest env (SaverType t) r0 w0 = (Ok r, w) ->
     SimpleConfigSaverHandler env t (Some extra) r0 w0 =
       runDeferred (extra r) (simpleConfigSaver env t None r w)) /\
  (forall mainHandler formData logMsg r0 w0 r w,
     parseFormRequest env formData r0 w0 = (Ok r, w) ->
     ControllerPostHandler env mainHandler (Some extra) formData logMsg r0 w0 =
       runDeferred (extra r) (controllerPost mainHandler None logMsg r w)) /\
  (forall t mainHandler formData logMsg r0 w0 s w,
     (parseFormRequest env (SaverType t) r0 w0 = (Panic s, w) ->
      SimpleConfigSaverHandler env t (Some extra) r0 w0 = (Panic s, w)) /\
     (parseFormRequest env formData r0 w0 = (Panic s, w) ->
      ControllerPostHandler env mainHandler (Some extra) formData logMsg r0 w0 =
        (Panic s, w))).
Proof.
  split; [|split].
  - intros t r0 w0 r w Hp.
    destruct (parseFormRequest_base _ _ _ _ _ _ Hp) as (g & tp & Hg & Ht).
    unfold SimpleConfigSaverHandler, FormParserMW. unfold_monad. rewrite Hp.
    by apply (simpleConfigSaver_defers env t extra r w g tp).
  - intros mainHandler formData logMsg r0 w0 r w Hp.
    destruct (parseFormRequest_base _ _ _ _ _ _ Hp) as (g & tp & Hg & Ht).
    unfold ControllerPostHandler, FormParserMW. unfold_monad. rewrite Hp.
    by apply (controllerPost_defers mainHandler extra logMsg r w g tp).
  - intros t mainHandler formData logMsg r0 w0 s w. split; intros Hp.
    + unfold SimpleConfigSaverHandler, FormParserMW. unfold_monad.
      by rewrite Hp.
    + unfold ControllerPostHandler, FormParserMW. unfold_monad.
      by rewrite Hp.
Qed.

(** ** What the resolver stores under the current-guild key *)

Lemma fallbackFullGuild_guild_live (env : Env) (r : Request)
    (guildID note : string) (w : World) :
  templateDataOK (Ctx r) w ->
  guildLive (Ctx r) w ->
  exists r' w',
    fallbackFullGuild env r guildID note w = (Ok r', w') /\
    guildLive (Ctx r') w'.
Proof.
  intros Htmpl Hlive. unfold fallbackFullGuild, setFullGuild, fetchGuild.
  run. destruct (GetGuild env guildID) as [g|e]; run.
  - unfold newGuild. run.
    set (w1 := set_guildHeap (guildHeap w ++ [g])
                 (set_fetched (fetched w ++ [guildID]) w)).
    destruct (SetContextTemplateData_total (Ctx r)
                [("ActiveGuild", VGuild (Some (length (guildHeap w))))] w1)
      as (ctx1 & w2 & Hset & Hstep); [exact Htmpl|].
    rewrite Hset. eexists _, _. split; [reflexivity|].
    unfold guildLive. simpl. rewrite (step_guilds _ _ _ _ Hstep). simpl.
    exists g. by apply list_lookup_middle.
  - eexists _, _. split; [reflexivity|]. exact Hlive.
Qed.

(** The resolver returns, and leaves the current-guild key absent or
    bound to a live guild object. *)
Lemma activeServer_guild_live (env : Env) (r : Request) (w : World) :
  templateDataOK (Ctx r) w ->
  guildLive (Ctx r) w ->
  exists r' w',
    activeServer env r w = (Ok r', w') /\ guildLive (Ctx r') w'.
Proof.
  intros Htmpl Hlive. unfold activeServer.
  destruct (ParseInt (ServerParam r)) as [n|e].
  - assert (Hfb : forall note, exists r' w',
              fallbackFullGuild env r (ServerParam r) note w = (Ok r', w') /\
              guildLive (Ctx r') w')
      by (intros note; by apply fallbackFullGuild_guild_live).
    destruct (Value (Ctx r) ContextKeyGuilds) as [v|]; [|apply Hfb].
    destruct v; try apply Hfb.
    destruct (findUserGuild (ServerParam r) gs) as [userGuild|]; [|apply Hfb].
    unfold newGuild. run.
    set (g := Guild.mk (UserGuild.ID userGuild) (UserGuild.Name userGuild)
                "" "" [] []).
    set (w1 := set_guildHeap (guildHeap w ++ [g]) w).
    set (ctx := WithValue
                  (WithValue (Ctx r) ContextKeyCurrentUserGuild
                     (VUserGuild userGuild))
                  ContextKeyCurrentGuild (VGuild (Some (length (guildHeap w))))).
    destruct (SetContextTemplateData_total ctx
                [("ActiveGuild", VGuild (Some (length (guildHeap w))));
                 ("IsAdmin", VBool (IsAdminCtx env ctx w1))] w1)
      as (ctx1 & w2 & Hset & Hstep); [exact Htmpl|].
    rewrite Hset. eexists _, _. split; [reflexivity|].
    unfold guildLive. simpl. rewrite (step_values _ _ _ _ Hstep) by done.
    simpl. rewrite (step_guilds _ _ _ _ Hstep). simpl.
    exists g. by apply list_lookup_middle.
  - run. eexists _, _. split; [reflexivity|]. exact Hlive.
Qed.

(** X15: behind the resolver and [RequireActiveServer] the upgrade guard
    never fails its assertion: on a context whose render data and
    current guild (if any) are live, whatever the id, the membership data
    and the outcome of the fetches, the chain returns whenever the inner
    handler does; it never panics. *)
Lemma resolved_chain_returns (env : Env) (inner : Handler) (r : Request)
    (w : World) :
  templateDataOK (Ctx r) w ->
  guildLive (Ctx r) w ->
  (forall r1 w1, exists w2, inner r1 w1 = (Ok tt, w2)) ->
  exists w',
    ActiveServerMW env (RequireActiveServer (RequireFullGuildMW env inner)) r w
    = (Ok tt, w').
Proof.
  intros Htmpl Hlive Hinner.
  destruct (activeServer_guild_live env r w Htmpl Hlive)
    as (r' & w' & Hrun & Hlive').
  unfold ActiveServerMW, deferServe. rewrite Hrun.
  unfold RequireActiveServer. unfold guildLive in Hlive'.
  destruct (Value (Ctx r') ContextKeyCurrentGuild) as [v|] eqn:Ev.
  - destruct v as [[p|]| | | | | | | | | | | | | |]; try contradiction.
    destruct Hlive' as [g Hg]. unfold RequireFullGuildMW.
    rewrite (guild_guard_run r' w' p g _ Ev Hg).
    simpl. destruct (bool_decide (Guild.OwnerID g = "")); simpl.
    + unfold fetchGuild. run.
      destruct (GetGuild env (Guild.ID g)); run; [apply Hinner | eauto].
    + apply Hinner.
  - run. eauto.
Qed.

(** * Concrete runs *)

Example ParseInt_snowflake : ParseInt "42" = inl 42%Z.
Proof. reflexivity. Qed.

Example ParseInt_negative : ParseInt "-7" = inl (-7)%Z.
Proof. reflexivity. Qed.

Example ParseInt_not_a_number : ParseInt "4x2" = inr ErrSyntax.
Proof. reflexivity. Qed.

Example ParseInt_out_of_range :
  ParseInt "9223372036854775808" = inr ErrRange.
Proof. reflexivity. Qed.

Example Contains_multipart :
  Contains "multipart/form-data; boundary=x" "multipart/form-data" = true.
Proof. reflexivity. Qed.

(** C1 at a guild with three roles of which the bot holds two. *)
Lemma RequireBotMemberMW_aggregates_permissions_witness :
  exists ctx' w',
    (forall inner,
       RequireBotMemberMW Sample.env inner
         (Sample.request [(ContextKeyCurrentGuild, VGuild (Some 0))] [])
         (Sample.world [Sample.full] []) =
       inner (WithContext
                (Sample.request [(ContextKeyCurrentGuild, VGuild (Some 0))] [])
                ctx') w') /\
    Value ctx' ContextKeyBotPermissions = Some (VInt 5) /\
    Value ctx' ContextKeyHighestBotRole = Some (VRole (Some Sample.roleA)) /\
    Value ctx' ContextKeyBotMember = Some (VMember Sample.bot).
Proof.
  destruct (RequireBotMemberMW_aggregates_permissions Sample.env
              (Sample.request [(ContextKeyCurrentGuild, VGuild (Some 0))] [])
              (Sample.world [Sample.full] []) (Sample.world [Sample.full] [])
              Sample.bot eq_refl I) as [H _].
  exact (H 0%nat Sample.full eq_refl eq_refl ltac:(discriminate)).
Defined.


(** C3 at a handler that returns a public error. *)
Lemma APIHandler_response_witness :
  APIHandler (fun _ => mret (Some (VError (NewPublicError ["quota exceeded"]))))
    (Sample.request [] []) (Sample.world [] [])
  = (Ok tt,
     mkWorld true [] []
       (mkWriter ∅ [CWriteHeader 500;
                    CWrite (JSON (failureEnvelope "quota exceeded"))])
       [apiErrorLog (Sample.request [] [])
          (NewPublicError ["quota exceeded"])]
       [] [] []).
Proof.
  destruct (APIHandler_response
              (fun _ => mret (Some (VError (NewPublicError ["quota exceeded"]))))
              (Sample.request [] []) (Sample.world [] []) (Sample.world [] [])
              (Some (VError (NewPublicError ["quota exceeded"]))) eq_refl)
    as (_ & H & _).
  exact (H (mkPublicError "quota exceeded") eq_refl).
Defined.

(** C4 at a form that does not decode and at one that does. *)
Lemma FormParserMW_outcome_witness :
  (forall inner,
     FormParserMW Sample.env inner (mkSchema "Settings")
       (Sample.request Sample.ctx0 [("bad", ["1"])])
       (Sample.world [Sample.full] [Sample.tmpl0]) =
     inner
       (formRequest (Sample.request Sample.ctx0 [("bad", ["1"])])
          [("bad", ["1"])] (mkForm "Settings" []) false)
       (mkWorld true [Sample.full]
          [mkTemplateData ∅ [mkAlert AlertDanger "Failed parsing form"]]
          (mkWriter ∅ [])
          [decodeFailedLog (EOther "schema: invalid value")] [] [] [])) /\
  (forall inner,
     FormParserMW Sample.env inner (mkSchema "Settings")
       (Sample.request Sample.ctx0 [("prefix", ["!"])])
       (Sample.world [Sample.full] [Sample.tmpl0]) =
     inner
       (formRequest (Sample.request Sample.ctx0 [("prefix", ["!"])])
          [("prefix", ["!"])] (mkForm "Settings" []) true)
       (Sample.world [Sample.full] [Sample.tmpl0])).
Proof.
  split.
  - destruct (FormParserMW_outcome Sample.env (mkSchema "Settings")
                (Sample.request Sample.ctx0 [("bad", ["1"])])
                (Sample.world [Sample.full] [Sample.tmpl0])
                [("bad", ["1"])] 0%nat 0%nat Sample.tmpl0
                eq_refl eq_refl eq_refl eq_refl) as (H & _ & _).
    destruct (H (mkForm "Settings" []) (EOther "schema: invalid value") eq_refl)
      as (H1 & _ & _).
    exact H1.
  - destruct (FormParserMW_outcome Sample.env (mkSchema "Settings")
                (Sample.request Sample.ctx0 [("prefix", ["!"])])
                (Sample.world [Sample.full] [Sample.tmpl0])
                [("prefix", ["!"])] 0%nat 0%nat Sample.tmpl0
                eq_refl eq_refl eq_refl eq_refl) as (_ & _ & H).
    destruct (H (mkForm "Settings" [])
                (Sample.world [Sample.full] [Sample.tmpl0]) eq_refl eq_refl)
      as (H1 & _ & _).
    exact H1.
Defined.

(** C5 at an anonymous request for the guild 42, whose record can be
    fetched, and for the guild 43, whose record cannot. *)
Lemma ActiveServerMW_falls_back_to_full_fetch_witness :
  (exists ctx' w',
     (forall inner,
        ActiveServerMW Sample.env inner (Sample.request [] [])
          (Sample.world [] []) =
        inner (WithContext (Sample.request [] []) ctx') w') /\
     Value ctx' ContextKeyCurrentGuild = Some (VGuild (Some 0%nat)) /\
     guildHeap w' = [Sample.full] /\
     fetched w' = ["42"]) /\
  (exists w' note,
     (forall inner,
        ActiveServerMW Sample.env inner
          (mkRequest [(ContextKeyGuilds, VGuilds [UserGuild.mk "42" "Lounge" true 8])]
             "/cp/43" "43" "" [])
          (Sample.world [] []) =
        inner
          (mkRequest [(ContextKeyGuilds, VGuilds [UserGuild.mk "42" "Lounge" true 8])]
             "/cp/43" "43" "" []) w') /\
     guildHeap w' = [] /\
     tmplHeap w' = [] /\
     fetched w' = ["43"] /\
     logs w' = [retrieveFailedLog Sample.notFound;
                setFailedLog Sample.notFound;
                mkLog LInfo note None []]).
Proof.
  split.
  - assert (Hnot : notAMember (Sample.request [] [])).
    { intros guilds Hg. discriminate Hg. }
    destruct (ActiveServerMW_falls_back_to_full_fetch Sample.env
                (Sample.request [] []) (Sample.world [] []) 42%Z
                eq_refl Hnot I) as [H _].
    exact (H Sample.full eq_refl).
  - assert (Hnot : notAMember
      (mkRequest [(ContextKeyGuilds, VGuilds [UserGuild.mk "42" "Lounge" true 8])]
         "/cp/43" "43" "" [])).
    { intros guilds Hg g Hin. injection Hg as <-.
      apply list_elem_of_singleton in Hin. subst g. discriminate. }
    destruct (ActiveServerMW_falls_back_to_full_fetch Sample.env
                (mkRequest [(ContextKeyGuilds, VGuilds [UserGuild.mk "42" "Lounge" true 8])]
                   "/cp/43" "43" "" [])
                (Sample.world [] []) 43%Z eq_refl Hnot I) as [_ H].
    exact (H Sample.notFound eq_refl).
Defined.


(** C9 at a form that does not decode: nothing is saved and the extra
    handler has run; and at a form that is saved: the extra handler runs
    after the save. *)
Example extra_handler_runs_when_form_is_rejected :
  SimpleConfigSaverHandler Sample.env (mkSaver (mkSchema "Settings") "Settings")
    (Some (Sample.mark "extra"))
    (Sample.request Sample.ctx0 [("bad", ["1"])])
    (Sample.world [Sample.full] [Sample.tmpl0])
  = (Ok tt,
     mkWorld true [Sample.full]
       [mkTemplateData ∅ [mkAlert AlertDanger "Failed parsing form"]]
       (mkWriter ∅ [CWrite (Raw "extra")])
       [decodeFailedLog (EOther "schema: invalid value")] [] [] []).
Proof. reflexivity. Qed.

Example extra_handler_runs_after_save :
  SimpleConfigSaverHandler Sample.env (mkSaver (mkSchema "Settings") "Settings")
    (Some (Sample.mark "extra"))
    (Sample.request Sample.ctx0 [("prefix", ["!"])])
    (Sample.world [Sample.full] [Sample.tmpl0])
  = (Ok tt,
     mkWorld true [Sample.full]
       [mkTemplateData ∅ [mkAlert AlertSuccess "Sucessfully saved! :')"]]
       (mkWriter ∅ [CWrite (Raw "extra")])
       [] [] [(mkForm "Settings" [], "42")] []).
Proof. reflexivity. Qed.

(** C9 when the main handler fails: the alert of the error is added and
    the extra handler still runs. *)
Example extra_handler_runs_when_main_handler_fails :
  ControllerPostHandler Sample.env
    (fun _ => mret (None, Some (NewPublicError ["quota exceeded"])))
    (Some (Sample.mark "extra")) (mkSchema "Settings") "Updated settings"
    (Sample.request Sample.ctx0 [("prefix", ["!"])])
    (Sample.world [Sample.full] [Sample.tmpl0])
  = (Ok tt,
     mkWorld true [Sample.full]
       [mkTemplateData ∅ [mkAlert AlertDanger "quota exceeded"]]
       (mkWriter ∅ [CWrite (Raw "extra")])
       [controllerErrorLog (NewPublicError ["quota exceeded"]) [("guild", "42")]]
       [] [] []).
Proof. reflexivity. Qed.

(** C10 at a request without an active guild: the guard alone panics,
    behind [RequireActiveServer] the request is redirected. *)
Example guild_guard_without_active_guild :
  RequireFullGuildMW Sample.env (Sample.mark "page") (Sample.request [] [])
    (Sample.world [] []) = (Panic assertionFailure, Sample.world [] []) /\
  RequireActiveServer (RequireFullGuildMW Sample.env (Sample.mark "page"))
    (Sample.request [] []) (Sample.world [] [])
  = (Ok tt, redirected "/?err=no_active_guild" (Sample.world [] [])).
Proof. split; reflexivity. Qed.

(** C9 at a form that does not decode: the wrapper is the closure
    without extra handler, run on the request with the flag false,
    followed by the extra handler. *)
Lemma extra_handler_runs_on_every_outcome_witness :
  SimpleConfigSaverHandler Sample.env (mkSaver (mkSchema "Settings") "Settings")
    (Some (Sample.mark "extra"))
    (Sample.request Sample.ctx0 [("bad", ["1"])])
    (Sample.world [Sample.full] [Sample.tmpl0])
  = runDeferred
      (Sample.mark "extra"
         (formRequest (Sample.request Sample.ctx0 [("bad", ["1"])])
            [("bad", ["1"])] (mkForm "Settings" []) false))
      (simpleConfigSaver Sample.env (mkSaver (mkSchema "Settings") "Settings")
         None
         (formRequest (Sample.request Sample.ctx0 [("bad", ["1"])])
            [("bad", ["1"])] (mkForm "Settings" []) false)
         (mkWorld true [Sample.full]
            [mkTemplateData ∅ [mkAlert AlertDanger "Failed parsing form"]]
            (mkWriter ∅ [])
            [decodeFailedLog (EOther "schema: invalid value")] [] [] [])).
Proof.
  destruct (extra_handler_runs_on_every_outcome Sample.env (Sample.mark "extra"))
    as [H _].
  exact (H (mkSaver (mkSchema "Settings") "Settings")
           (Sample.request Sample.ctx0 [("bad", ["1"])])
           (Sample.world [Sample.full] [Sample.tmpl0]) _ _ eq_refl).
Defined.

(** C10 at a stub behind [RequireActiveServer]: the request is handed on
    and the guard upgrades the stub. *)
Lemma guild_assertion_needs_active_guild_witness :
  RequireActiveServer (RequireFullGuildMW Sample.env (Sample.mark "page"))
    (Sample.request Sample.ctx0 [])
    (Sample.world [Sample.stub] [Sample.tmpl0])
  = (Ok tt,
     mkWorld true [Sample.full] [Sample.tmpl0]
       (mkWriter ∅ [CWrite (Raw "page")]) [] ["42"] [] []).
Proof.
  destruct (guild_assertion_needs_active_guild Sample.env (Sample.mark "page")
              (Sample.request Sample.ctx0 [])
              (Sample.world [Sample.stub] [Sample.tmpl0])) as [_ H].
  destruct (H 0%nat Sample.stub eq_refl eq_refl) as (H1 & _ & H3).
  rewrite H1. exact H3.
Defined.

(** * Further properties *)

(** ** The resolver and the stages behind it *)

Lemma insert_at_end {A} (l : list A) (x y : A) :
  <[length l := y]> (l ++ [x]) = l ++ [y].
Proof.
  rewrite insert_app_r_alt by lia. by rewrite Nat.sub_diag.
Qed.

(** The resolver on a member: the stub is a new guild object, bound to
    the current-guild key next to the membership entry; nothing is
    fetched. *)
Lemma activeServer_member (env : Env) (r : Request) (w : World) (n : Z)
    (guilds : list UserGuild.t) (userGuild : UserGuild.t) :
  ParseInt (ServerParam r) = inl n ->
  Value (Ctx r) ContextKeyGuilds = Some (VGuilds guilds) ->
  findUserGuild (ServerParam r) guilds = Some userGuild ->
  templateDataOK (Ctx r) w ->
  exists ctx' w',
    activeServer env r w = (Ok (WithContext r ctx'), w') /\
    Value ctx' ContextKeyCurrentGuild =
      Some (VGuild (Some (length (guildHeap w)))) /\
    Value ctx' ContextKeyCurrentUserGuild = Some (VUserGuild userGuild) /\
    guildHeap w' = guildHeap w ++ [stubOf userGuild] /\
    fetched w' = fetched w /\
    logs w' = logs w.
Proof.
  intros Hnum Hguilds Hfind Htmpl. unfold activeServer.
  rewrite Hnum, Hguilds, Hfind. unfold newGuild. run.
  fold (stubOf userGuild).
  set (w1 := set_guildHeap (guildHeap w ++ [stubOf userGuild]) w).
  set (ctx := WithValue
                (WithValue (Ctx r) ContextKeyCurrentUserGuild
                   (VUserGuild userGuild))
                ContextKeyCurrentGuild (VGuild (Some (length (guildHeap w))))).
  destruct (SetContextTemplateData_total ctx
              [("ActiveGuild", VGuild (Some (length (guildHeap w))));
               ("IsAdmin", VBool (IsAdminCtx env ctx w1))] w1)
    as (ctx1 & w2 & Hset & Hstep); [exact Htmpl|].
  rewrite Hset. exists ctx1, w2. split; [reflexivity|].
  rewrite !(step_values _ _ _ _ Hstep) by done.
  rewrite (step_guilds _ _ _ _ Hstep), (step_fetched _ _ _ _ Hstep),
    (step_logs _ _ _ _ Hstep).
  repeat split.
Qed.

(** The resolver on a request outside the membership data whose record
    can be fetched. *)
Lemma activeServer_fetched (env : Env) (r : Request) (w : World) (n : Z)
    (g : Guild.t) :
  ParseInt (ServerParam r) = inl n ->
  notAMember r ->
  templateDataOK (Ctx r) w ->
  GetGuild env (ServerParam r) = inl g ->
  exists ctx' w',
    activeServer env r w = (Ok (WithContext r ctx'), w') /\
    Value ctx' ContextKeyCurrentGuild =
      Some (VGuild (Some (length (guildHeap w)))) /\
    guildHeap w' = guildHeap w ++ [g] /\
    fetched w' = fetched w ++ [ServerParam r].
Proof.
  intros Hnum Hnot Htmpl Hget.
  destruct (activeServer_fallback env r w n Hnum Hnot) as [note Hfb].
  set (w1 := set_guildHeap (guildHeap w ++ [g])
               (set_fetched (fetched w ++ [ServerParam r]) w)).
  destruct (SetContextTemplateData_total (Ctx r)
              [("ActiveGuild", VGuild (Some (length (guildHeap w))))] w1)
    as (ctx1 & w2 & Hset & Hstep); [exact Htmpl|].
  eexists _, _. split.
  - rewrite Hfb. unfold fallbackFullGuild, setFullGuild, fetchGuild, newGuild.
    run. rewrite Hget. run. fold w1. rewrite Hset. reflexivity.
  - simpl. rewrite (step_guilds _ _ _ _ Hstep), (step_fetched _ _ _ _ Hstep).
    repeat split.
Qed.

(** X1: a request whose id [strconv.ParseInt] refuses, on a context
    without an active guild, is not enriched at all: nothing is fetched,
    the refusal is logged, and behind [RequireActiveServer] the request is
    redirected with [no_active_guild] instead of reaching the page. *)
Theorem non_numeric_id_ends_in_redirect
    (env : Env) (inner : Handler) (r : Request) (w : World) (e : NumError) :
  ParseInt (ServerParam r) = inr e ->
  Value (Ctx r) ContextKeyCurrentGuild = None ->
  ActiveServerMW env (RequireActiveServer inner) r w =
    (Ok tt, redirected "/?err=no_active_guild"
              (logged (notANumberLog (ServerParam r) e) w)).
Proof.
  intros Hnum Hnone. unfold ActiveServerMW, deferServe, activeServer.
  rewrite Hnum. run. unfold RequireActiveServer. by rewrite Hnone.
Qed.

Lemma non_numeric_id_ends_in_redirect_witness :
  ActiveServerMW Sample.env (RequireActiveServer (Sample.mark "page"))
    (mkRequest [] "/cp/4x2" "4x2" "" []) (Sample.world [] [])
  = (Ok tt,
     mkWorld true [] []
       (mkWriter {["Location" := ["/?err=no_active_guild"]]}
                 [CWriteHeader 307])
       [notANumberLog "4x2" ErrSyntax] [] [] []).
Proof.
  exact (non_numeric_id_ends_in_redirect Sample.env (Sample.mark "page")
           (mkRequest [] "/cp/4x2" "4x2" "" []) (Sample.world [] [])
           ErrSyntax eq_refl eq_refl).
Defined.

(** X2: for a member of the requested guild the resolver fetches nothing:
    it builds a new guild object that carries the id and the name of the
    membership entry and nothing else (owner id, region, roles and
    channels empty), and binds it to the current-guild key and the entry
    itself to the current-user-guild key. *)
Theorem ActiveServerMW_member_gets_stub
    (env : Env) (r : Request) (w : World) (n : Z)
    (guilds : list UserGuild.t) (userGuild : UserGuild.t) :
  ParseInt (ServerParam r) = inl n ->
  Value (Ctx r) ContextKeyGuilds = Some (VGuilds guilds) ->
  findUserGuild (ServerParam r) guilds = Some userGuild ->
  templateDataOK (Ctx r) w ->
  exists ctx' w',
    (forall inner,
       ActiveServerMW env inner r w = inner (WithContext r ctx') w') /\
    Value ctx' ContextKeyCurrentGuild =
      Some (VGuild (Some (length (guildHeap w)))) /\
    Value ctx' ContextKeyCurrentUserGuild = Some (VUserGuild userGuild) /\
    guildHeap w' =
      guildHeap w ++
      [Guild.mk (ServerParam r) (UserGuild.Name userGuild) "" "" [] []] /\
    fetched w' = fetched w /\
    logs w' = logs w.
Proof.
  intros Hnum Hguilds Hfind Htmpl.
  destruct (activeServer_member env r w n guilds userGuild
              Hnum Hguilds Hfind Htmpl)
    as (ctx' & w' & Hrun & Hg & Hug & Hheap & Hf & Hl).
  destruct (findUserGuild_Some _ _ _ Hfind) as [_ Hid].
  exists ctx', w'. repeat split; try assumption.
  - intros inner. unfold ActiveServerMW, deferServe. by rewrite Hrun.
  - rewrite Hheap. unfold stubOf. by rewrite Hid.
Qed.

Lemma ActiveServerMW_member_gets_stub_witness :
  exists ctx' w',
    (forall inner,
       ActiveServerMW Sample.env inner
         (Sample.request
            [(ContextKeyGuilds, VGuilds [UserGuild.mk "42" "Lounge" false 32])] [])
         (Sample.world [] []) =
       inner (WithContext
                (Sample.request
                   [(ContextKeyGuilds,
                     VGuilds [UserGuild.mk "42" "Lounge" false 32])] [])
                ctx') w') /\
    Value ctx' ContextKeyCurrentGuild = Some (VGuild (Some 0%nat)) /\
    Value ctx' ContextKeyCurrentUserGuild =
      Some (VUserGuild (UserGuild.mk "42" "Lounge" false 32)) /\
    guildHeap w' = [Sample.stub] /\
    fetched w' = [] /\
    logs w' = [].
Proof.
  exact (ActiveServerMW_member_gets_stub Sample.env
           (Sample.request
              [(ContextKeyGuilds, VGuilds [UserGuild.mk "42" "Lounge" false 32])] [])
           (Sample.world [] []) 42%Z
           [UserGuild.mk "42" "Lounge" false 32]
           (UserGuild.mk "42" "Lounge" false 32) eq_refl eq_refl eq_refl I).
Defined.

(** X3: the resolver followed by the upgrade guard, for a member whose
    guild record can be fetched: exactly one fetch is made, by the guard,
    and the guild object that the page sees has the owner id, the region
    and the roles of the fetched record under the id and the name of the
    membership entry. *)
Theorem member_stub_is_upgraded_by_one_fetch
    (env : Env) (r : Request) (w : World) (n : Z)
    (guilds : list UserGuild.t) (userGuild : UserGuild.t)
    (fullGuild : Guild.t) :
  ParseInt (ServerParam r) = inl n ->
  Value (Ctx r) ContextKeyGuilds = Some (VGuilds guilds) ->
  findUserGuild (ServerParam r) guilds = Some userGuild ->
  templateDataOK (Ctx r) w ->
  GetGuild env (ServerParam r) = inl fullGuild ->
  exists ctx' w',
    (forall inner,
       ActiveServerMW env (RequireFullGuildMW env inner) r w =
         inner (WithContext r ctx') w') /\
    Value ctx' ContextKeyCurrentGuild =
      Some (VGuild (Some (length (guildHeap w)))) /\
    guildHeap w' =
      guildHeap w ++
      [Guild.mk (ServerParam r) (UserGuild.Name userGuild)
         (Guild.Region fullGuild) (Guild.OwnerID fullGuild)
         (Guild.Roles fullGuild) []] /\
    fetched w' = fetched w ++ [ServerParam r].
Proof.
  intros Hnum Hguilds Hfind Htmpl Hget.
  destruct (activeServer_member env r w n guilds userGuild
              Hnum Hguilds Hfind Htmpl)
    as (ctx' & w' & Hrun & Hg & Hug & Hheap & Hf & Hl).
  destruct (findUserGuild_Some _ _ _ Hfind) as [_ Hid].
  assert (Hp : guildHeap w' !! length (guildHeap w) = Some (stubOf userGuild)).
  { rewrite Hheap. by apply list_lookup_middle. }
  eexists ctx', _. split; [|split; [exact Hg|]].
  - intros inner. unfold ActiveServerMW, deferServe. rewrite Hrun.
    unfold RequireFullGuildMW.
    rewrite (guild_guard_run (WithContext r ctx') w' _ _ _ Hg Hp). simpl.
    rewrite Hid. unfold fetchGuild, storeGuild. run. rewrite Hget.
    reflexivity.
  - simpl. by rewrite Hheap, Hf, insert_at_end.
Qed.

Lemma member_stub_is_upgraded_by_one_fetch_witness :
  exists ctx' w',
    (forall inner,
       ActiveServerMW Sample.env (RequireFullGuildMW Sample.env inner)
         (Sample.request
            [(ContextKeyGuilds, VGuilds [UserGuild.mk "42" "Lounge" false 32])] [])
         (Sample.world [] []) =
       inner (WithContext
                (Sample.request
                   [(ContextKeyGuilds,
                     VGuilds [UserGuild.mk "42" "Lounge" false 32])] [])
                ctx') w') /\
    Value ctx' ContextKeyCurrentGuild = Some (VGuild (Some 0%nat)) /\
    guildHeap w' = [Sample.full] /\
    fetched w' = ["42"].
Proof.
  exact (member_stub_is_upgraded_by_one_fetch Sample.env
           (Sample.request
              [(ContextKeyGuilds, VGuilds [UserGuild.mk "42" "Lounge" false 32])] [])
           (Sample.world [] []) 42%Z
           [UserGuild.mk "42" "Lounge" false 32]
           (UserGuild.mk "42" "Lounge" false 32) Sample.full
           eq_refl eq_refl eq_refl I eq_refl).
Defined.

(** X4: when the resolver fell back to the full fetch and the fetched
    record has an owner, the upgrade guard behind it adds nothing: the
    two together are the resolver alone, so the record is fetched once. *)
Theorem fetched_guild_is_not_fetched_again
    (env : Env) (inner : Handler) (r : Request) (w : World) (n : Z)
    (g : Guild.t) :
  ParseInt (ServerParam r) = inl n ->
  notAMember r ->
  templateDataOK (Ctx r) w ->
  GetGuild env (ServerParam r) = inl g ->
  Guild.OwnerID g <> "" ->
  ActiveServerMW env (RequireFullGuildMW env inner) r w =
    ActiveServerMW env inner r w.
Proof.
  intros Hnum Hnot Htmpl Hget Howner.
  destruct (activeServer_fetched env r w n g Hnum Hnot Htmpl Hget)
    as (ctx' & w' & Hrun & Hg & Hheap & _).
  assert (Hp : guildHeap w' !! length (guildHeap w) = Some g).
  { rewrite Hheap. by apply list_lookup_middle. }
  unfold ActiveServerMW, deferServe. rewrite Hrun.
  unfold RequireFullGuildMW.
  rewrite (guild_guard_run (WithContext r ctx') w' _ _ _ Hg Hp). simpl.
  by rewrite bool_decide_eq_false_2.
Qed.

Lemma fetched_guild_is_not_fetched_again_witness :
  ActiveServerMW Sample.env
    (RequireFullGuildMW Sample.env (Sample.mark "page"))
    (Sample.request [] []) (Sample.world [] [])
  = ActiveServerMW Sample.env (Sample.mark "page")
      (Sample.request [] []) (Sample.world [] []).
Proof.
  assert (Hnot : notAMember (Sample.request [] [])).
  { intros guilds Hg. discriminate Hg. }
  exact (fetched_guild_is_not_fetched_again Sample.env (Sample.mark "page")
           (Sample.request [] []) (Sample.world [] []) 42%Z Sample.full
           eq_refl Hnot I eq_refl ltac:(discriminate)).
Defined.

(** X5: on a live guild whose channels can be fetched and that is full
    or can be upgraded, the channel loader and the upgrade guard commute:
    in either order the inner handler is served the same request on the
    same world, so neither stage undoes what the other wrote into the
    guild object. *)
Theorem channels_and_upgrade_commute
    (env : Env) (inner : Handler) (r : Request) (w : World)
    (p : nat) (g : Guild.t) (channels : list Channel.t) :
  Value (Ctx r) ContextKeyCurrentGuild = Some (VGuild (Some p)) ->
  guildHeap w !! p = Some g ->
  GetGuildChannels env (Guild.ID g) = inl channels ->
  (Guild.OwnerID g <> "" \/ exists fullGuild, GetGuild env (Guild.ID g) = inl fullGuild) ->
  RequireGuildChannelsMiddleware env (RequireFullGuildMW env inner) r w =
  RequireFullGuildMW env (RequireGuildChannelsMiddleware env inner) r w.
Proof.
  intros Hctx Hheap Hch Hfull.
  assert (Hlt : (p < length (guildHeap w))%nat) by by eapply lookup_lt_Some.
  set (r1 := WithContext r (WithValue (Ctx r) ContextKeyGuildChannels
                              (VChannels channels))).
  assert (Hctx1 : Value (Ctx r1) ContextKeyCurrentGuild =
                  Some (VGuild (Some p))) by exact Hctx.
  set (w1 := set_guildHeap (<[p := withChannels g channels]> (guildHeap w)) w).
  assert (Hheap1 : guildHeap w1 !! p = Some (withChannels g channels)).
  { simpl. by apply list_lookup_insert_eq. }
  assert (Hleft :
    RequireGuildChannelsMiddleware env (RequireFullGuildMW env inner) r w =
    RequireFullGuildMW env inner r1 w1).
  { unfold RequireGuildChannelsMiddleware.
    rewrite (guild_guard_run r w p g _ Hctx Hheap). simpl. rewrite Hch.
    reflexivity. }
  rewrite Hleft. unfold RequireFullGuildMW at 1 2.
  rewrite (guild_guard_run r1 w1 p _ _ Hctx1 Hheap1).
  rewrite (guild_guard_run r w p g _ Hctx Hheap). simpl.
  destruct (bool_decide (Guild.OwnerID g = "")) eqn:Eowner; simpl.
  - destruct Hfull as [Hne | [fullGuild Hget]];
      [by apply bool_decide_eq_true in Eowner|].
    unfold fetchGuild, storeGuild. run. rewrite Hget.
    set (w2 := set_guildHeap (<[p := upgraded g fullGuild]> (guildHeap w))
                 (set_fetched (fetched w ++ [Guild.ID g]) w)).
    assert (Hheap2 : guildHeap w2 !! p = Some (upgraded g fullGuild)).
    { simpl. by apply list_lookup_insert_eq. }
    unfold RequireGuildChannelsMiddleware.
    rewrite (guild_guard_run r w2 p _ _ Hctx Hheap2). simpl. rewrite Hch.
    unfold storeGuild. run. rewrite !list_insert_insert_eq. reflexivity.
  - unfold RequireGuildChannelsMiddleware.
    rewrite (guild_guard_run r w p g _ Hctx Hheap). simpl. rewrite Hch.
    reflexivity.
Qed.

Lemma channels_and_upgrade_commute_witness :
  RequireGuildChannelsMiddleware Sample.env
    (RequireFullGuildMW Sample.env (Sample.mark "page"))
    (Sample.request Sample.ctx0 [])
    (Sample.world [Sample.stub] [Sample.tmpl0])
  = RequireFullGuildMW Sample.env
      (RequireGuildChannelsMiddleware Sample.env (Sample.mark "page"))
      (Sample.request Sample.ctx0 [])
      (Sample.world [Sample.stub] [Sample.tmpl0]).
Proof.
  exact (channels_and_upgrade_commute Sample.env (Sample.mark "page")
           (Sample.request Sample.ctx0 [])
           (Sample.world [Sample.stub] [Sample.tmpl0]) 0%nat Sample.stub
           [Channel.mk "1" "general"] eq_refl eq_refl eq_refl
           (or_intror (ex_intro _ Sample.full eq_refl))).
Defined.

(** X6: when the sidecar lookup of the bot member fails and the lookup
    through the platform API fails too, the request is redirected with
    [errFailedRetrievingBotMember]: the inner handler is not served and
    nothing but the response and the log is touched. *)
Theorem RequireBotMemberMW_redirects_without_member
    (env : Env) (inner : Handler) (r : Request) (w : World)
    (e1 e2 : error) :
  GetBotMember env (ServerParam r) = inr e1 ->
  GuildMember env (ServerParam r) (BotID env) = inr e2 ->
  RequireBotMemberMW env inner r w =
    (Ok tt,
     redirected "/?err=errFailedRetrievingBotMember"
       (logged (mkLog LError "Failed retrieving bot member" (Some e2) [])
          (logged (mkLog LPrint (BotID env) None [])
             (logged (mkLog LWarn "FALLING BACK TO DISCORD API FOR BOT MEMBER"
                        (Some e1) []) w)))).
Proof.
  intros H1 H2. unfold RequireBotMemberMW, getBotMember. rewrite H1.
  run. rewrite H2. reflexivity.
Qed.

Lemma RequireBotMemberMW_redirects_without_member_witness :
  RequireBotMemberMW Sample.env (Sample.mark "page")
    (mkRequest [] "/cp/43" "43" "" []) (Sample.world [] [])
  = (Ok tt,
     mkWorld true [] []
       (mkWriter {["Location" := ["/?err=errFailedRetrievingBotMember"]]}
                 [CWriteHeader 307])
       [mkLog LWarn "FALLING BACK TO DISCORD API FOR BOT MEMBER"
          (Some Sample.notFound) [];
        mkLog LPrint "bot" None [];
        mkLog LError "Failed retrieving bot member" (Some Sample.notFound) []]
       [] [] []).
Proof.
  exact (RequireBotMemberMW_redirects_without_member Sample.env
           (Sample.mark "page") (mkRequest [] "/cp/43" "43" "" [])
           (Sample.world [] []) Sample.notFound Sample.notFound
           eq_refl eq_refl).
Defined.

(** ** The aggregate as a set of granted bits *)

Lemma land_lor_eq_0 (a b p : Z) :
  Z.land (Z.lor a b) p = 0%Z <-> Z.land a p = 0%Z /\ Z.land b p = 0%Z.
Proof. rewrite Z.land_lor_distr_l. apply Z.lor_eq_0_iff. Qed.

Lemma land_foldr_lor (l : list Z) (p : Z) :
  Z.land (foldr Z.lor 0%Z l) p <> 0%Z <->
  exists x, x ∈ l /\ Z.land x p <> 0%Z.
Proof.
  induction l as [|a l IH]; simpl.
  - split; [intros H; by destruct H | intros (x & Hx & _); inversion Hx].
  - rewrite land_lor_eq_0. split.
    + intros H. destruct (decide (Z.land a p = 0%Z)) as [Ha|Ha].
      * destruct (proj1 IH) as (x & Hx & Hp); [intros Hl; by apply H|].
        exists x. split; [by right | done].
      * exists a. split; [left | done].
    + intros (x & Hx & Hp) [Ha Hl]. apply elem_of_cons in Hx as [->|Hx];
        [done|]. apply IH; eauto.
Qed.

(** X7: the aggregate grants a permission mask exactly when a role of
    the guild that the bot holds grants it: [combinedPerms & perm] is not
    zero if and only if some role whose id is among the member's role ids
    has a bit of [perm]. *)
Theorem aggregate_grants_what_a_held_role_grants
    (member : Member.t) (roles : list Role.t) (perm : Z) :
  Z.land (aggregateRoles member roles).2 perm <> 0%Z <->
  exists role,
    role ∈ roles /\ Role.ID role ∈ Member.Roles member /\
    Z.land (Role.Permissions role) perm <> 0%Z.
Proof.
  rewrite aggregateRoles_perms. unfold specCombinedPerms.
  rewrite land_foldr_lor. split.
  - intros (x & Hx & Hp). apply list_elem_of_fmap in Hx as (role & -> & Hrole).
    apply list_elem_of_filter in Hrole as [Hheld Hin]. eauto.
  - intros (role & Hin & Hheld & Hp). exists (Role.Permissions role).
    split; [|done]. apply list_elem_of_fmap. exists role. split; [done|].
    by apply list_elem_of_filter.
Qed.

Lemma foldr_lor_Permutation (l1 l2 : list Z) :
  l1 ≡ₚ l2 -> foldr Z.lor 0%Z l1 = foldr Z.lor 0%Z l2.
Proof.
  induction 1 as [|x l1 l2 _ IH|x y l|l1 l2 l3 _ IH1 _ IH2]; simpl.
  - reflexivity.
  - by rewrite IH.
  - rewrite !Z.lor_assoc. by rewrite (Z.lor_comm y x).
  - by rewrite IH1.
Qed.

(** X8: the aggregated bitmask depends on the roles of the guild and on
    the role ids of the member as sets only: reordering the roles, and
    reordering or repeating the member's role ids, leaves it unchanged. *)
Theorem aggregate_is_order_independent
    (member member' : Member.t) (roles roles' : list Role.t) :
  roles ≡ₚ roles' ->
  (forall id, id ∈ Member.Roles member <-> id ∈ Member.Roles member') ->
  (aggregateRoles member roles).2 = (aggregateRoles member' roles').2.
Proof.
  intros Hperm Hset. rewrite !aggregateRoles_perms. unfold specCombinedPerms.
  apply foldr_lor_Permutation.
  rewrite (list_filter_iff _ (fun r => Role.ID r ∈ Member.Roles member') roles)
    by (intros role; apply Hset).
  by rewrite Hperm.
Qed.

Lemma aggregate_is_order_independent_witness :
  (aggregateRoles (Member.mk "42" ["c"; "a"])
     [Sample.roleA; Sample.roleB; Sample.roleC]).2
  = (aggregateRoles (Member.mk "42" ["a"; "c"; "a"])
       [Sample.roleC; Sample.roleB; Sample.roleA]).2.
Proof.
  apply (aggregate_is_order_independent
           (Member.mk "42" ["c"; "a"]) (Member.mk "42" ["a"; "c"; "a"])
           [Sample.roleA; Sample.roleB; Sample.roleC]
           [Sample.roleC; Sample.roleB; Sample.roleA]).
  - etransitivity; [apply Permutation_swap|].
    etransitivity; [apply Permutation_skip, Permutation_swap|].
    apply Permutation_swap.
  - intros id. simpl. rewrite !elem_of_cons, !elem_of_nil. tauto.
Defined.

(** X9: the highest role is nil exactly when the bot holds no role of
    the guild; otherwise it is a role of the guild that the bot holds,
    and no role that the bot holds has a greater position. *)
Theorem highest_role_has_greatest_position
    (member : Member.t) (roles : list Role.t) :
  match (aggregateRoles member roles).1 with
  | None =>
      forall role, role ∈ roles -> Role.ID role ∉ Member.Roles member
  | Some h =>
      h ∈ roles /\ Role.ID h ∈ Member.Roles member /\
      forall role, role ∈ roles -> Role.ID role ∈ Member.Roles member ->
                   (Role.Position role <= Role.Position h)%Z
  end.
Proof.
  pose proof (aggregateRoles_highest member roles) as H.
  unfold highestInv, highestIn, matchingRoles in H.
  destruct (aggregateRoles member roles).1 as [h|].
  - destruct H as (before & after & Heq & Hb & Ha).
    assert (Hh : h ∈ filter (fun r => Role.ID r ∈ Member.Roles member) roles).
    { rewrite Heq. apply elem_of_app. right. left. }
    apply list_elem_of_filter in Hh as [Hheld Hin].
    split; [done|]. split; [done|].
    intros role Hrole Hrheld.
    assert (Hr : role ∈ before ++ h :: after).
    { rewrite <- Heq. by apply list_elem_of_filter. }
    apply elem_of_app in Hr as [Hr|Hr].
    + rewrite Forall_forall in Hb. specialize (Hb role Hr). simpl in Hb. lia.
    + apply elem_of_cons in Hr as [->|Hr]; [lia|].
      rewrite Forall_forall in Ha. exact (Ha role Hr).
  - intros role Hrole Hheld.
    assert (Hr : role ∈ filter (fun r => Role.ID r ∈ Member.Roles member) roles)
      by by apply list_elem_of_filter.
    rewrite H in Hr. inversion Hr.
Qed.

Lemma aggregateRoles_isInt_witness :
  isInt (aggregateRoles Sample.bot [Sample.roleA; Sample.roleB; Sample.roleC]).2.
Proof.
  apply (aggregateRoles_isInt Sample.bot
           [Sample.roleA; Sample.roleB; Sample.roleC]).
  repeat constructor; simpl; lia.
Defined.

Lemma resolved_chain_returns_witness :
  exists w',
    ActiveServerMW Sample.env
      (RequireActiveServer (RequireFullGuildMW Sample.env (Sample.mark "page")))
      (Sample.request [] []) (Sample.world [] [])
    = (Ok tt, w').
Proof.
  apply (resolved_chain_returns Sample.env (Sample.mark "page")
           (Sample.request [] []) (Sample.world [] []) I I).
  intros r1 w1. eexists. reflexivity.
Defined.

(** ** The JSON wrapper at its edges *)

(** X11: [APIHandler] never answers with the success envelope by itself:
    when the handler returns nil nothing is written and no status is
    set, and for any other returned value that is not itself that
    envelope, the calls that the wrapper adds to the response do not
    contain it. *)
Theorem APIHandler_never_builds_ok_envelope
    (inner : CustomHandlerFunc) (r : Request) (w w1 : World)
    (out : option value) :
  inner r w = (Ok out, w1) ->
  (out = None -> APIHandler inner r w = (Ok tt, w1)) /\
  (out <> Some okEnvelope ->
   exists res w2 new,
     APIHandler inner r w = (res, w2) /\
     Calls (writer w2) = Calls (writer w1) ++ new /\
     CWrite (JSON okEnvelope) ∉ new).
Proof.
  intros Hin. split.
  - intros ->. unfold APIHandler. run. by rewrite Hin.
  - intros Hne. unfold APIHandler. run. rewrite Hin.
    destruct out as [v|]; [|exists (Ok tt), w1, []; run;
                             rewrite app_nil_r; repeat split; apply not_elem_of_nil].
    assert (Hplain : forall v0, v0 <> okEnvelope ->
              CWrite (JSON okEnvelope) ∉ [CWrite (JSON v0)]).
    { intros v0 Hv0 H. apply list_elem_of_singleton in H. congruence. }
    destruct v;
      try (eexists (Ok tt), _, [CWrite (JSON _)]; run;
           split; [reflexivity|]; split; [reflexivity|];
           apply Hplain; congruence).
    destruct e as [[p|]|text]; run.
    + eexists (Ok tt), _, [_; _]. split; [reflexivity|].
      split; [simpl; by rewrite <- app_assoc|].
      intros H. apply elem_of_cons in H as [H|H]; [discriminate|].
      apply list_elem_of_singleton in H. discriminate.
    + eexists _, _, []. split; [reflexivity|].
      split; [by rewrite app_nil_r | apply not_elem_of_nil].
    + eexists (Ok tt), _, [_; _]. split; [reflexivity|].
      split; [simpl; by rewrite <- app_assoc|].
      intros H. apply elem_of_cons in H as [H|H]; [discriminate|].
      apply list_elem_of_singleton in H. discriminate.
Qed.

Lemma APIHandler_never_builds_ok_envelope_witness :
  APIHandler (fun _ => mret None) (Sample.request [] []) (Sample.world [] [])
  = (Ok tt, Sample.world [] []).
Proof.
  destruct (APIHandler_never_builds_ok_envelope (fun _ => mret None)
              (Sample.request [] []) (Sample.world [] []) (Sample.world [] [])
              None eq_refl) as [H _].
  exact (H eq_refl).
Defined.

(** X12: an error value that is a nil pointer of type PublicError makes
    both adapters panic on reading its message: [APIHandler] before it
    writes or logs anything, [checkControllerError] before it adds an
    alert or logs. *)
Theorem nil_public_error_panics
    (inner : CustomHandlerFunc) (r : Request) (w w1 : World)
    (guild data : option nat) :
  inner r w = (Ok (Some (VError (EPublic None))), w1) ->
  APIHandler inner r w = (Panic nilDeref, w1) /\
  checkControllerError guild data (Some (EPublic None)) w = (Panic nilDeref, w).
Proof.
  intros Hin. split.
  - unfold APIHandler. run. by rewrite Hin.
  - reflexivity.
Qed.

Lemma nil_public_error_panics_witness :
  APIHandler (fun _ => mret (Some (VError (EPublic None))))
    (Sample.request [] []) (Sample.world [] [])
  = (Panic nilDeref, Sample.world [] []).
Proof.
  destruct (nil_public_error_panics
              (fun _ => mret (Some (VError (EPublic None))))
              (Sample.request [] []) (Sample.world [] []) (Sample.world [] [])
              None None eq_refl) as [H _].
  exact H.
Defined.

(** ** The form pipeline: rejected and accepted forms *)

(** X13: a form that decodes but does not pass the validation is handed
    on with the outcome flag false, and both saving wrappers then do
    nothing but run their extra handler, if any: nothing is saved, the
    main handler is not called, no success alert and no audit entry are
    written. *)
Theorem rejected_form_is_not_saved
    (env : Env) (r : Request) (w w1 : World) (form : Values)
    (g tp : nat) (decoded : FormValue) (dst : FormSchema) :
  parseBody env r = inl form ->
  Value (Ctx r) ContextKeyCurrentGuild = Some (VGuild (Some g)) ->
  Value (Ctx r) ContextKeyTemplateData = Some (VTemplateData tp) ->
  Decode env dst form = (decoded, None) ->
  ValidateForm env g tp decoded w = (Ok false, w1) ->
  (forall t extra,
     SaverType t = dst -> ImplementsSaver env decoded = true ->
     SimpleConfigSaverHandler env t extra r w =
       deferExtra extra (formRequest r form decoded false) (mret tt) w1) /\
  (forall mainHandler extra logMsg,
     ControllerPostHandler env mainHandler extra dst logMsg r w =
       deferExtra extra (formRequest r form decoded false) (mret tt) w1).
Proof.
  intros Hparse Hg Ht Hdec Hval.
  assert (Hform : parseFormRequest env dst r w =
                  (Ok (formRequest r form decoded false), w1)).
  { unfold parseFormRequest. rewrite Hparse. unfold_monad. cbn [Ctx Form].
    rewrite (GetBaseCPContextData_ok _ g tp w Hg Ht), Hdec, Hval.
    reflexivity. }
  split.
  - intros t extra <- Himpl.
    unfold SimpleConfigSaverHandler, FormParserMW. unfold_monad.
    rewrite Hform.
    by apply (simpleConfigSaver_skips env t extra _ w1 g tp decoded).
  - intros mainHandler extra logMsg.
    unfold ControllerPostHandler, FormParserMW. unfold_monad.
    rewrite Hform.
    by apply (controllerPost_skips env mainHandler extra logMsg _ w1 g tp).
Qed.



Lemma rejected_form_is_not_saved_witness :
  SimpleConfigSaverHandler Sample2.strictEnv Sample2.saver None
    (Sample.request Sample.ctx0 [("prefix", ["!!!!!!!!"])])
    (Sample.world [Sample.full] [Sample.tmpl0])
  = (Ok tt,
     Sample.world [Sample.full]
       [mkTemplateData ∅ [mkAlert AlertDanger "Prefix is too long"]]).
Proof.
  destruct (rejected_form_is_not_saved Sample2.strictEnv
              (Sample.request Sample.ctx0 [("prefix", ["!!!!!!!!"])])
              (Sample.world [Sample.full] [Sample.tmpl0])
              (Sample.world [Sample.full]
                 [mkTemplateData ∅ [mkAlert AlertDanger "Prefix is too long"]])
              [("prefix", ["!!!!!!!!"])] 0%nat 0%nat (mkForm "Settings" [])
              (mkSchema "Settings") eq_refl eq_refl eq_refl eq_refl eq_refl)
    as [H _].
  exact (H Sample2.saver None eq_refl eq_refl).
Defined.

(** X16: the saving closure on an accepted form, with the guild [g] at
    address [p] and a logged-in user: [Save] is called exactly once, with
    the decoded form and the id of [g].  When [CheckErr] reports no
    failure, the success alert is added to the render data and one audit
    entry [Updated <name> Config.] is written for that user and guild;
    when it reports a failure, neither is written. *)
Theorem simpleConfigSaver_saves_once
    (env : Env) (t : SimpleConfigSaver) (r : Request) (w w3 : World)
    (p tp : nat) (g : Guild.t) (f : FormValue) (u : User.t) (failed : bool) :
  Value (Ctx r) ContextKeyCurrentGuild = Some (VGuild (Some p)) ->
  Value (Ctx r) ContextKeyTemplateData = Some (VTemplateData tp) ->
  Value (Ctx r) ContextKeyParsedForm = Some (VForm f) ->
  Value (Ctx r) ContextKeyFormOk = Some (VBool true) ->
  Value (Ctx r) ContextKeyUser = Some (VUser u) ->
  ImplementsSaver env f = true ->
  guildHeap w !! p = Some g ->
  CheckErr env tp (Save env f (RedisClientFromContext (Ctx r)) (Guild.ID g))
    "Failed saving config" (savedTo f (Guild.ID g) w) = (Ok failed, w3) ->
  (failed = true -> simpleConfigSaver env t None r w = (Ok tt, w3)) /\
  (failed = false ->
   forall td, tmplHeap w3 !! tp = Some td ->
     simpleConfigSaver env t None r w =
       (Ok tt, audited u (Guild.ID g) (updatedConfigMsg t)
                 (alerted tp td [savedAlert] w3))).
Proof.
  intros Hg Ht Hf Hok Hu Himpl Hheap Hcheck.
  assert (Hrun : simpleConfigSaver env t None r w =
    (if negb failed then
       AddAlerts (Some tp) [savedAlert];;
       AddCPLogEntry u (Guild.ID g) (updatedConfigMsg t)
     else mret tt) w3).
  { unfold simpleConfigSaver. unfold_monad.
    rewrite (GetBaseCPContextData_ok _ p tp w Hg Ht).
    cbn [deferExtra]. rewrite Hf, Hok, Hu. unfold assertSaver. rewrite Himpl.
    cbn [assertBool assertUser]. unfold_monad. cbn [negb].
    rewrite (derefGuild_ok p g w Hheap). unfold saveForm. unfold_monad.
    unfold savedTo in Hcheck. rewrite Hcheck. reflexivity. }
  split.
  - intros ->. exact Hrun.
  - intros -> td Htd. rewrite Hrun. cbn [negb]. unfold_monad.
    by rewrite (AddAlerts_ok tp td _ w3 Htd).
Qed.

Lemma simpleConfigSaver_saves_once_witness :
  simpleConfigSaver Sample.env Sample2.saver None
    (Sample.request (Sample2.acceptedCtx Sample2.settings) [])
    (Sample.world [Sample.full] [Sample.tmpl0])
  = (Ok tt,
     mkWorld true [Sample.full]
       [mkTemplateData ∅ [mkAlert AlertSuccess "Sucessfully saved! :')"]]
       (mkWriter ∅ []) [] [] [(Sample2.settings, "42")]
       [(Sample2.user, "42", "Updated General Config.")]).
Proof.
  destruct (simpleConfigSaver_saves_once Sample.env Sample2.saver
              (Sample.request (Sample2.acceptedCtx Sample2.settings) [])
              (Sample.world [Sample.full] [Sample.tmpl0])
              (savedTo Sample2.settings "42"
                 (Sample.world [Sample.full] [Sample.tmpl0]))
              0%nat 0%nat Sample.full Sample2.settings Sample2.user false
              eq_refl eq_refl eq_refl eq_refl eq_refl eq_refl eq_refl eq_refl)
    as [_ H].
  exact (H eq_refl Sample.tmpl0 eq_refl).
Defined.

(** X17: the posting closure on an accepted form, with the guild [g] at
    address [p], the render data at [tp] and a logged-in user.  When the
    main handler returns no error, the success alert goes to the data the
    handler returned, or to the render data of the context when it
    returned nil, and one audit entry with the caller's text is written;
    when it returns a public error, the only alert is the error's own
    message, and neither the success alert nor an audit entry is
    written. *)
Theorem controllerPost_reports_outcome
    (mainHandler : ControllerHandlerFunc) (logMsg : string)
    (r : Request) (w w1 : World) (p tp : nat) (g : Guild.t) (u : User.t)
    (data : option nat) (err : option error) (d : nat) (td : TemplateData) :
  Value (Ctx r) ContextKeyCurrentGuild = Some (VGuild (Some p)) ->
  Value (Ctx r) ContextKeyTemplateData = Some (VTemplateData tp) ->
  Value (Ctx r) ContextKeyFormOk = Some (VBool true) ->
  Value (Ctx r) ContextKeyUser = Some (VUser u) ->
  mainHandler r w = (Ok (data, err), w1) ->
  d = default tp data ->
  tmplHeap w1 !! d = Some td ->
  guildHeap w1 !! p = Some g ->
  (err = None ->
   controllerPost mainHandler None logMsg r w =
     (Ok tt, audited u (Guild.ID g) logMsg (alerted d td [savedAlert] w1))) /\
  (forall m, err = Some (EPublic (Some (mkPublicError m))) ->
   controllerPost mainHandler None logMsg r w =
     (Ok tt,
      logged (controllerErrorLog (EPublic (Some (mkPublicError m)))
                [("guild", Guild.ID g)])
        (alerted d td [mkAlert AlertDanger m] w1))).
Proof.
  intros Hg Ht Hok Hu Hmain -> Htd Hheap.
  assert (Hrun :
    controllerPost mainHandler None logMsg r w =
    (checkControllerError (Some p) (Some (default tp data)) err;;
     match err with
     | None =>
         AddAlerts (Some (default tp data)) [savedAlert];;
         '(_, guild) ← derefGuild (Some p);
         AddCPLogEntry u (Guild.ID guild) logMsg
     | Some _ => mret tt
     end) w1) by
    (unfold controllerPost; unfold_monad;
     rewrite (GetBaseCPContextData_ok _ p tp w Hg Ht);
     cbn [deferExtra]; rewrite Hok, Hu; cbn [assertBool assertUser];
     unfold_monad; cbn [negb]; rewrite Hmain; destruct data; reflexivity).
  split.
  - intros ->. rewrite Hrun. unfold_monad. cbn [checkControllerError].
    unfold_monad. rewrite (AddAlerts_ok _ td _ w1 Htd).
    rewrite (derefGuild_ok p g) by exact Hheap. reflexivity.
  - intros m ->. rewrite Hrun. unfold_monad.
    unfold checkControllerError.
    cbn [assertPublicError PublicError_Error fmap option_fmap option_map msg].
    unfold_monad. rewrite (AddAlerts_ok _ td _ w1 Htd).
    rewrite (derefGuild_ok p g) by exact Hheap. reflexivity.
Qed.

Lemma controllerPost_reports_outcome_witness :
  controllerPost (fun _ => mret (None, None)) None "Updated the feeds"
    (Sample.request (Sample2.acceptedCtx Sample2.settings) [])
    (Sample.world [Sample.full] [Sample.tmpl0])
  = (Ok tt,
     mkWorld true [Sample.full]
       [mkTemplateData ∅ [mkAlert AlertSuccess "Sucessfully saved! :')"]]
       (mkWriter ∅ []) [] [] []
       [(Sample2.user, "42", "Updated the feeds")]).
Proof.
  destruct (controllerPost_reports_outcome (fun _ => mret (None, None))
              "Updated the feeds"
              (Sample.request (Sample2.acceptedCtx Sample2.settings) [])
              (Sample.world [Sample.full] [Sample.tmpl0])
              (Sample.world [Sample.full] [Sample.tmpl0])
              0%nat 0%nat Sample.full Sample2.user None None 0%nat
              Sample.tmpl0 eq_refl eq_refl eq_refl eq_refl eq_refl eq_refl
              eq_refl eq_refl) as [H _].
  exact (H eq_refl).
Defined.

(** ** The permission report *)

Lemma string_app_assoc (a b c : string) : (a +:+ b) +:+ c = a +:+ (b +:+ c).
Proof.
  induction a as [|x a IH]; [reflexivity|].
  change (String x ((a +:+ b) +:+ c) = String x (a +:+ (b +:+ c))).
  by rewrite IH.
Qed.

Lemma joinNames_cons_cons (a b : string) (l : list string) :
  joinNames (a :: b :: l) = a +:+ ", " +:+ joinNames (b :: l).
Proof. reflexivity. Qed.

Lemma joinNames_nonempty (a : string) (l : list string) :
  a <> "" -> joinNames (a :: l) <> "".
Proof.
  intros Ha. destruct a as [|c a]; [done|].
  destruct l; simpl; discriminate.
Qed.

Lemma joinNames_snoc (l : list string) (x : string) :
  l <> [] -> joinNames (l ++ [x]) = joinNames l +:+ ", " +:+ x.
Proof.
  induction l as [|a l IH]; [done|]. intros _.
  destruct l as [|b l]; [reflexivity|].
  change ((a :: b :: l) ++ [x]) with (a :: (b :: l) ++ [x]).
  change ((b :: l) ++ [x]) with (b :: (l ++ [x])) at 1.
  rewrite joinNames_cons_cons.
  change (b :: (l ++ [x])) with ((b :: l) ++ [x]).
  rewrite IH by done. rewrite joinNames_cons_cons.
  by rewrite !string_app_assoc.
Qed.

(** Appending one more name to a list of names that are not empty. *)
Lemma appendName_join (l : list string) (x : string) :
  Forall (fun name => name <> "") l ->
  appendName (joinNames l) x = joinNames (l ++ [x]).
Proof.
  intros Hl. unfold appendName. destruct l as [|a l]; [reflexivity|].
  inversion Hl as [|? ? Ha _]; subst.
  rewrite bool_decide_eq_false_2 by by apply joinNames_nonempty.
  rewrite joinNames_snoc by done. by rewrite string_app_assoc.
Qed.

Lemma fold_permStep_join (stringPerms : gmap Z string) (currentPerms : Z)
    (perms : list Z) (hs ms : list string) :
  Forall (fun name => name <> "") hs ->
  Forall (fun name => name <> "") ms ->
  Forall (fun perm => permName stringPerms perm <> "") perms ->
  fold_left (permStep stringPerms currentPerms) perms
    (joinNames hs, joinNames ms) =
  (joinNames (hs ++ (permName stringPerms <$> heldPerms currentPerms perms)),
   joinNames (ms ++ (permName stringPerms <$> lackingPerms currentPerms perms))).
Proof.
  revert hs ms. induction perms as [|perm perms IH]; intros hs ms Hhs Hms Hall.
  - simpl. by rewrite !app_nil_r.
  - inversion Hall as [|? ? Hperm Hrest]; subst. cbn [fold_left].
    unfold permStep at 2. unfold heldPerms, lackingPerms.
    destruct (Z.eqb_spec (Z.land currentPerms perm) 0) as [Hz|Hnz]; simpl.
    + rewrite appendName_join by done.
      rewrite IH; [|done|by apply Forall_app; split; [|constructor]|done].
      rewrite filter_cons_False by (intros H; by apply H).
      rewrite filter_cons_True by done.
      unfold heldPerms, lackingPerms. simpl. by rewrite <- app_assoc.
    + rewrite appendName_join by done.
      rewrite IH; [|by apply Forall_app; split; [|constructor]|done|done].
      rewrite filter_cons_True by done.
      rewrite filter_cons_False by done.
      unfold heldPerms, lackingPerms. simpl. by rewrite <- app_assoc.
Qed.

(** X18: for permissions that all have a name in the table, the two
    texts that the loop of [RequirePermMW] builds are the names of the
    permissions that the current bitmask has a bit of, and the names of
    the others, each list in the order of the arguments and joined with
    a comma and a space: every required permission is named in exactly
    one of the two. *)
Theorem permReport_names_each_permission_once
    (stringPerms : gmap Z string) (currentPerms : Z) (perms : list Z) :
  Forall (fun perm => permName stringPerms perm <> "") perms ->
  permReport stringPerms currentPerms perms =
    (joinNames (permName stringPerms <$> heldPerms currentPerms perms),
     joinNames (permName stringPerms <$> lackingPerms currentPerms perms)).
Proof.
  intros Hall. unfold permReport.
  exact (fold_permStep_join stringPerms currentPerms perms [] []
           (Forall_nil_2 _) (Forall_nil_2 _) Hall).
Qed.

Lemma permReport_names_each_permission_once_witness :
  permReport Sample2.stringPerms 2052 [1024; 2048; 4; 32]%Z
  = ("Send Messages, Ban Members", "Read Messages, Manage Server").
Proof.
  apply (permReport_names_each_permission_once Sample2.stringPerms 2052
           [1024; 2048; 4; 32]%Z).
  repeat constructor; discriminate.
Defined.

Lemma alerted_nil (tp : nat) (t : TemplateData) (w : World) :
  tmplHeap w !! tp = Some t -> alerted tp t [] w = w.
Proof.
  intros H. unfold alerted. rewrite app_nil_r.
  replace (mkTemplateData (Data t) (Alerts t)) with t by by destruct t.
  rewrite list_insert_id by done. by destruct w.
Qed.

Lemma alerted_alerted (tp : nat) (t : TemplateData) (a b : list Alert)
    (w : World) :
  alerted tp (mkTemplateData (Data t) (Alerts t ++ a)) b (alerted tp t a w)
  = alerted tp t (a ++ b) w.
Proof.
  unfold alerted. simpl. rewrite list_insert_insert_eq.
  by rewrite <- app_assoc.
Qed.

Lemma alerted_lookup (tp : nat) (t : TemplateData) (a : list Alert)
    (w : World) :
  tmplHeap w !! tp = Some t ->
  tmplHeap (alerted tp t a w) !! tp =
    Some (mkTemplateData (Data t) (Alerts t ++ a)).
Proof.
  intros H. unfold alerted. simpl. apply list_lookup_insert_eq.
  by eapply lookup_lt_Some.
Qed.

(** The part of [RequirePermMW] behind the lookup of the bitmask. *)
Lemma RequirePermMW_report (stringPerms : gmap Z string) (perms : list Z)
    (inner : Handler) (r : Request) (w : World) (currentPerms : Z)
    (tp : nat) (t : TemplateData) :
  Value (Ctx r) ContextKeyTemplateData = Some (VTemplateData tp) ->
  tmplHeap w !! tp = Some t ->
  (let '(has, missing) := permReport stringPerms currentPerms perms in
   '(ctx, tmpl) ← GetCreateTemplateData (Ctx r);
   (if bool_decide (missing = "") then mret tt
    else AddAlerts (Some tmpl) [missingAlert missing]);;
   (if bool_decide (has = "") then mret tt
    else AddAlerts (Some tmpl) [hasAlert has]);;
   inner (WithContext r ctx)) w =
  inner r (alerted tp t
             (permAlerts (permReport stringPerms currentPerms perms).1
                         (permReport stringPerms currentPerms perms).2) w).
Proof.
  intros Ht Hheap.
  destruct (permReport stringPerms currentPerms perms) as [has missing].
  unfold GetCreateTemplateData. rewrite Ht. unfold_monad.
  rewrite WithContext_same. unfold permAlerts. cbn [fst snd].
  destruct (bool_decide (missing = "")), (bool_decide (has = "")); simpl.
  - by rewrite alerted_nil.
  - by rewrite (AddAlerts_ok tp t _ w Hheap).
  - by rewrite (AddAlerts_ok tp t _ w Hheap).
  - rewrite (AddAlerts_ok tp t _ w Hheap).
    rewrite (AddAlerts_ok tp _ _ _ (alerted_lookup tp t _ w Hheap)).
    by rewrite alerted_alerted.
Qed.

(** X19: [RequirePermMW] never turns a request away.  With a bitmask in
    the context and live render data it serves the inner handler the
    request it got, after adding at most two alerts to the render data:
    first the error alert naming the missing permissions, when there are
    any, then the success alert naming the ones the bot has, when there
    are any. *)
Theorem RequirePermMW_only_reports
    (stringPerms : gmap Z string) (perms : list Z) (inner : Handler)
    (r : Request) (w : World) (currentPerms : Z) (tp : nat)
    (t : TemplateData) :
  Value (Ctx r) ContextKeyBotPermissions = Some (VInt currentPerms) ->
  Value (Ctx r) ContextKeyTemplateData = Some (VTemplateData tp) ->
  tmplHeap w !! tp = Some t ->
  RequirePermMW stringPerms perms inner r w =
    inner r (alerted tp t
               (permAlerts (permReport stringPerms currentPerms perms).1
                           (permReport stringPerms currentPerms perms).2) w).
Proof.
  intros Hp Ht Hheap. unfold RequirePermMW. rewrite Hp.
  cbn [assertInt]. unfold_monad.
  exact (RequirePermMW_report stringPerms perms inner r w currentPerms tp t
           Ht Hheap).
Qed.

Lemma RequirePermMW_only_reports_witness :
  RequirePermMW Sample2.stringPerms [1024; 2048; 4; 32]%Z (Sample.mark "page")
    (Sample.request
       [(ContextKeyBotPermissions, VInt 2052);
        (ContextKeyTemplateData, VTemplateData 0)] [])
    (Sample.world [] [Sample.tmpl0])
  = (Ok tt,
     mkWorld true []
       [mkTemplateData ∅
          [missingAlert "Read Messages, Manage Server";
           hasAlert "Send Messages, Ban Members"]]
       (mkWriter ∅ [CWrite (Raw "page")]) [] [] [] []).
Proof.
  exact (RequirePermMW_only_reports Sample2.stringPerms
           [1024; 2048; 4; 32]%Z (Sample.mark "page")
           (Sample.request
              [(ContextKeyBotPermissions, VInt 2052);
               (ContextKeyTemplateData, VTemplateData 0)] [])
           (Sample.world [] [Sample.tmpl0]) 2052%Z 0%nat Sample.tmpl0
           eq_refl eq_refl eq_refl).
Defined.

Lemma fold_permStep_zero (stringPerms : gmap Z string) (perms : list Z)
    (missing : string) :
  (fold_left (permStep stringPerms 0) perms ("", missing)).1 = "".
Proof.
  revert missing. induction perms as [|perm perms IH]; intros missing;
    [reflexivity|].
  cbn [fold_left]. unfold permStep at 2. rewrite Z.land_0_l. simpl.
  apply IH.
Qed.

(** X20: without a bitmask in the context (the aggregator did not run, or
    skipped the guild) [RequirePermMW] takes the bitmask to be zero: a
    warning is logged, the bot is never said to have a permission, every
    required permission that has a name is listed as missing, and the
    inner handler is served all the same. *)
Theorem RequirePermMW_without_bitmask
    (stringPerms : gmap Z string) (perms : list Z) (inner : Handler)
    (r : Request) (w : World) (tp : nat) (t : TemplateData) :
  Value (Ctx r) ContextKeyBotPermissions = None ->
  Value (Ctx r) ContextKeyTemplateData = Some (VTemplateData tp) ->
  tmplHeap w !! tp = Some t ->
  RequirePermMW stringPerms perms inner r w =
    inner r (alerted tp t
               (permAlerts "" (permReport stringPerms 0 perms).2)
               (logged noPermsLog w)) /\
  (Forall (fun perm => permName stringPerms perm <> "") perms ->
   (permReport stringPerms 0 perms).2 =
     joinNames (permName stringPerms <$> perms)).
Proof.
  intros Hp Ht Hheap. split.
  - unfold RequirePermMW. rewrite Hp. unfold log. unfold_monad.
    etransitivity;
      [exact (RequirePermMW_report stringPerms perms inner r
                (logged noPermsLog w) 0%Z tp t Ht Hheap)|].
    unfold permReport at 1. by rewrite fold_permStep_zero.
  - intros Hall. unfold permReport.
    change ("", "") with (joinNames [], joinNames []).
    rewrite (fold_permStep_join stringPerms 0 perms [] []
               (Forall_nil_2 _) (Forall_nil_2 _) Hall).
    simpl. f_equal. f_equal. unfold lackingPerms.
    clear. induction perms as [|perm perms IH]; [reflexivity|].
    rewrite filter_cons_True by apply Z.land_0_l. by rewrite IH.
Qed.

Lemma RequirePermMW_without_bitmask_witness :
  RequirePermMW Sample2.stringPerms [2; 4]%Z (Sample.mark "page")
    (Sample.request [(ContextKeyTemplateData, VTemplateData 0)] [])
    (Sample.world [] [Sample.tmpl0])
  = (Ok tt,
     mkWorld true []
       [mkTemplateData ∅ [missingAlert "Kick Members, Ban Members"]]
       (mkWriter ∅ [CWrite (Raw "page")]) [noPermsLog] [] [] []).
Proof.
  destruct (RequirePermMW_without_bitmask Sample2.stringPerms [2; 4]%Z
              (Sample.mark "page")
              (Sample.request [(ContextKeyTemplateData, VTemplateData 0)] [])
              (Sample.world [] [Sample.tmpl0]) 0%nat Sample.tmpl0
              eq_refl eq_refl eq_refl) as [H _].
  exact H.
Defined.

(** ** Static paths *)

Lemma substring_0_0 (s : string) : substring 0 0 s = "".
Proof. by destruct s. Qed.

Lemma isStaticPath_iff (path : string) :
  isStaticPath path = true <->
  exists rest, rest <> "" /\ path = "/static/" +:+ rest.
Proof.
  unfold isStaticPath. split.
  - intros H. apply andb_prop in H as [Hlen Hpre].
    apply bool_decide_eq_true in Hpre.
    destruct path as [|c1 [|c2 [|c3 [|c4 [|c5 [|c6 [|c7 [|c8 rest]]]]]]]];
      try discriminate.
    cbn [substring] in Hpre. rewrite substring_0_0 in Hpre.
    injection Hpre as -> -> -> -> -> -> -> ->.
    exists rest. split; [|reflexivity].
    intros ->. discriminate.
  - intros (rest & Hrest & ->). destruct rest as [|c rest]; [done|].
    cbn [String.append substring String.length]. reflexivity.
Qed.

(** X21: a path counts as static exactly when it is [/static/] followed
    by at least one more byte (the bare [/static/] does not), and for
    such a path the cache-client stage and the base-data stage do
    nothing: no client is taken from the pool, no render data is
    created, and the inner handler is served the request as it came. *)
Theorem static_paths_bypass_enrichment
    (pool : RedisPool) (conf : BaseConfig) (info : RequestInfo)
    (inner : Handler) (r : Request) (w : World) :
  (isStaticPath (Path info) = true <->
   exists rest, rest <> "" /\ Path info = "/static/" +:+ rest) /\
  (isStaticPath (Path info) = true ->
   RedisMiddleware pool info (BaseTemplateDataMiddleware conf info inner) r w
   = inner r w).
Proof.
  split; [apply isStaticPath_iff|].
  intros H. unfold RedisMiddleware, BaseTemplateDataMiddleware.
  by rewrite H.
Qed.

Example bare_static_directory_is_not_static :
  isStaticPath "/static/" = false /\ isStaticPath "/static/app.js" = true /\
  isStaticPath "/statics/app.js" = false.
Proof. repeat split. Qed.

Lemma static_paths_bypass_enrichment_witness :
  RedisMiddleware Sample2.pool (mkInfo "/static/app.js" "10.0.0.1:4711")
    (BaseTemplateDataMiddleware Sample2.conf
       (mkInfo "/static/app.js" "10.0.0.1:4711") (Sample.mark "file"))
    (Sample.request [] []) (Sample.world [] [])
  = (Ok tt,
     mkWorld true [] [] (mkWriter ∅ [CWrite (Raw "file")]) [] [] [] []).
Proof.
  destruct (static_paths_bypass_enrichment Sample2.pool Sample2.conf
              (mkInfo "/static/app.js" "10.0.0.1:4711") (Sample.mark "file")
              (Sample.request [] []) (Sample.world [] [])) as [_ H].
  exact (H eq_refl).
Defined.

(** ** The page controller *)



(** ** The managed organizations *)

(** X23: the guilds that [UserInfoMiddleware] collects as managed are
    the wrapped guilds that the user owns or has the manage-server bit
    in, each once for each time it is listed and in the order of the
    list. *)
Theorem managedGuildsOf_is_the_managed_sublist
    {WrappedGuild : Type} (Owner : WrappedGuild -> bool)
    (Permissions : WrappedGuild -> Z) (PermissionManageServer : Z)
    (wrapped : list WrappedGuild) :
  managedGuildsOf Owner Permissions PermissionManageServer wrapped =
    filter (isManaged Owner Permissions PermissionManageServer) wrapped /\
  (forall g,
     g ∈ managedGuildsOf Owner Permissions PermissionManageServer wrapped <->
     g ∈ wrapped /\ isManaged Owner Permissions PermissionManageServer g).
Proof.
  assert (Hfold : forall acc,
    fold_left (managedStep Owner Permissions PermissionManageServer) wrapped acc
    = acc ++ filter (isManaged Owner Permissions PermissionManageServer) wrapped).
  { induction wrapped as [|g wrapped IH]; intros acc; cbn [fold_left].
    - by rewrite app_nil_r.
    - rewrite IH. unfold managedStep.
      destruct (Owner g) eqn:Eo; simpl.
      + rewrite filter_cons_True by (by left). by rewrite <- app_assoc.
      + destruct (Z.eqb_spec (Z.land (Permissions g) PermissionManageServer) 0)
          as [Hz|Hnz]; simpl.
        * rewrite filter_cons_False; [done|].
          intros [H|H]; [congruence | done].
        * rewrite filter_cons_True by (by right). by rewrite <- app_assoc. }
  assert (Heq : managedGuildsOf Owner Permissions PermissionManageServer wrapped
                = filter (isManaged Owner Permissions PermissionManageServer)
                    wrapped) by apply (Hfold []).
  split; [exact Heq|].
  intros g. rewrite Heq, list_elem_of_filter. tauto.
Qed.

(** ** The client address of the request log *)

Lemma beforeColon_noColon (s : string) : noColon (beforeColon s).
Proof.
  induction s as [|c s IH]; simpl; [done|].
  case_bool_decide; simpl; [done | by split].
Qed.

(** X24: the client address that [RequestLogger] writes is the part of
    the remote address in front of its first colon: it has no colon, the
    remote address is that part alone or that part, a colon and a rest,
    and an address without colon is written whole.  (Of an IPv6 address
    in brackets only the opening bracket is left.) *)
Theorem loggedAddr_is_the_part_before_the_first_colon (info : RequestInfo) :
  noColon (loggedAddr info) /\
  (RemoteAddr info = loggedAddr info \/
   exists rest, RemoteAddr info = loggedAddr info +:+ ":" +:+ rest) /\
  (noColon (RemoteAddr info) -> loggedAddr info = RemoteAddr info).
Proof.
  unfold loggedAddr. generalize (RemoteAddr info) as s. intros s.
  split; [apply beforeColon_noColon|]. split.
  - induction s as [|c s IH]; simpl; [by left|].
    case_bool_decide as Hc.
    + right. exists s. by rewrite Hc.
    + destruct IH as [IH | [rest IH]].
      * left. by rewrite <- IH.
      * right. exists rest.
        change (String c s = String c (beforeColon s +:+ ":" +:+ rest)).
        by rewrite <- IH.
  - induction s as [|c s IH]; simpl; [done|].
    intros [Hc Hs]. rewrite bool_decide_eq_false_2 by done.
    by rewrite IH.
Qed.

Example loggedAddr_examples :
  loggedAddr (mkInfo "/" "203.0.113.9:51234") = "203.0.113.9" /\
  loggedAddr (mkInfo "/" "[::1]:8080") = "[".
Proof. split; reflexivity. Qed.

(** ** The cache client *)

(** X25: on a path that is not static, a client that the pool hands out
    is bound to the cache key of the context that the inner handler is
    served, and it is put back exactly once after the inner handler, also
    when the inner handler panics; when the pool has no client, the
    failure is logged, the inner handler is served the request as it
    came, and nothing is put back. *)
Theorem RedisMiddleware_returns_the_client
    (pool : RedisPool) (info : RequestInfo) (inner : Handler)
    (r : Request) (w w1 : World) :
  isStaticPath (Path info) = false ->
  (forall client,
     PoolGet pool w = (Ok (inl client), w1) ->
     let ctx := WithValue (Ctx r) ContextKeyRedis (VRedis client) in
     RedisMiddleware pool info inner r w =
       runDeferred (PoolPut pool client) (inner (WithContext r ctx) w1) /\
     RedisClientFromContext ctx = Some client) /\
  (forall e,
     PoolGet pool w = (Ok (inr e), w1) ->
     RedisMiddleware pool info inner r w = inner r (logged (poolFailedLog e) w1)).
Proof.
  intros Hstatic. split.
  - intros client Hget ctx. split; [|reflexivity].
    unfold RedisMiddleware. rewrite Hstatic. unfold_monad. by rewrite Hget.
  - intros e Hget. unfold RedisMiddleware. rewrite Hstatic. unfold log.
    unfold_monad. by rewrite Hget.
Qed.

Lemma RedisMiddleware_returns_the_client_witness :
  RedisMiddleware
    (mkPool (mret (inl 1%nat)) (fun _ => Write (Raw "put")))
    (mkInfo "/cp/42" "10.0.0.1:4711")
    (fun _ => panic "handler failed") (Sample.request [] [])
    (Sample.world [] [])
  = (Panic "handler failed",
     mkWorld true [] [] (mkWriter ∅ [CWrite (Raw "put")]) [] [] [] []).
Proof.
  destruct (RedisMiddleware_returns_the_client
              (mkPool (mret (inl 1%nat)) (fun _ => Write (Raw "put")))
              (mkInfo "/cp/42" "10.0.0.1:4711")
              (fun _ => panic "handler failed") (Sample.request [] [])
              (Sample.world [] []) (Sample.world [] []) eq_refl) as [H _].
  destruct (H 1%nat eq_refl) as [H1 _].
  exact H1.
Defined.
